(** * extract_wacz.py: conversion of a WACZ archive into a harvest directory

    A shallow embedding of [src/extract_wacz.py] (open-wacz).

    - Python [str] values are Rocq [string]s.  A Rocq [ascii] is an 8-bit
      character, so a [string] is also a byte string: text written with
      [encoding="utf-8"] is modelled by its UTF-8 bytes, and the bytes of a
      zip member by a [string].
    - The manifest [datapackage.json] decodes to a [dict] with string
      values (the WACZ format gives [created], [title], [software],
      [mainPageUrl] and [mainPageDate] string values); it is a
      [gmap string string].
    - The file system is a [gmap] from paths (lists of path segments) to
      nodes; the empty path is the working directory.  Paths are resolved
      lexically (no symbolic links).
    - Python exceptions are the [exn] values of a state and error monad
      [PyIO]: an exception leaves the file system as it was when it was
      raised, as it does in Python. *)

From stdpp Require Import base gmap strings list.
From Stdlib Require Import Ascii.

(* ------------------------------------------------------------------ *)
(** ** Python string operations *)

Definition char_slash : ascii := "/"%char.
Definition char_dot : ascii := "."%char.

(** [s[:n]] *)
Fixpoint py_slice_to (n : nat) (s : string) : string :=
  match n, s with
  | O, _ => EmptyString
  | _, EmptyString => EmptyString
  | S n', String c r => String c (py_slice_to n' r)
  end.

(** [s.split(c)] for a one-character separator: never empty. *)
Fixpoint py_split (c : ascii) (s : string) : list string :=
  match s with
  | EmptyString => [EmptyString]
  | String x r =>
      let parts := py_split c r in
      if ascii_dec x c then EmptyString :: parts
      else match parts with
           | p :: ps => String x p :: ps
           | [] => [String x EmptyString]
           end
  end.

(** [l[0]] of a list that is never empty here. *)
Definition py_head (l : list string) : string :=
  match l with p :: _ => p | [] => EmptyString end.

(** [s.startswith(prefix)] *)
Definition py_startswith (s pre : string) : bool := String.prefix pre s.

(** [s.endswith("/")] *)
Definition ends_with_slash (s : string) : bool :=
  match String.get (String.length s - 1) s with
  | Some c => if ascii_dec c char_slash then true else false
  | None => false
  end.

(** [s.rstrip("/")] *)
Fixpoint rstrip_slash (s : string) : string :=
  match s with
  | EmptyString => EmptyString
  | String c r =>
      let r' := rstrip_slash r in
      if ascii_dec c char_slash then
        (if String.eqb r' EmptyString then EmptyString else String c r')
      else String c r'
  end.

(** [posixpath.basename(p)]: what follows the last ['/']. *)
Definition os_path_basename (p : string) : string :=
  List.last (py_split char_slash p) EmptyString.

(** [posixpath.join(a, b)] *)
Definition os_path_join (a b : string) : string :=
  if String.prefix "/" b then b
  else if String.eqb a EmptyString || ends_with_slash a then a +:+ b
  else a +:+ "/" +:+ b.

(* ------------------------------------------------------------------ *)
(** ** Harvest metadata *)

Record RequiredHarvestMetadata := {
  full_date : string;
  date : string
}.

Record OptionalHarvestMetadata := {
  title : option string;
  software : option string;
  main_page_url : option string;
  main_page_date : option string
}.

Record HarvestMetadata := {
  required : RequiredHarvestMetadata;
  optional : OptionalHarvestMetadata
}.

(** Python exceptions raised by the script or by the library calls it
    makes; file-system errors carry the offending path. *)
Inductive exn :=
  | ValueError (msg : string)
  | KeyError (key : string)
  | JSONDecodeError
  | FileExistsError (p : list string)
  | FileNotFoundError (p : list string)
  | NotADirectoryError (p : list string)
  | IsADirectoryError (p : list string)
  | DirectoryNotEmpty (p : list string)   (* OSError, errno ENOTEMPTY *)
  | InvalidArgument (p : list string)     (* OSError, errno EINVAL *)
  | ShutilError (p : list string).        (* shutil.Error *)

Definition missing_created_msg : string :=
  "This script requires that the datapackage.json has a 'created' property, but it was not found!".

(** [RequiredHarvestMetadata.__init__] *)
Definition mk_RequiredHarvestMetadata (obj : gmap string string)
    : exn + RequiredHarvestMetadata :=
  match obj !! "created" with
  | Some created =>
      let full_date := created in
      inr {| full_date := full_date; date := py_slice_to 7 full_date |}
  | None => inl (ValueError missing_created_msg)
  end.

(** [OptionalHarvestMetadata.__init__]: [None] unless the key is present. *)
Definition mk_OptionalHarvestMetadata (obj : gmap string string)
    : OptionalHarvestMetadata :=
  {| title := obj !! "title";
     software := obj !! "software";
     main_page_url := obj !! "mainPageUrl";
     main_page_date := obj !! "mainPageDate" |}.

(** [HarvestMetadata.__init__] *)
Definition mk_HarvestMetadata (obj : gmap string string)
    : exn + HarvestMetadata :=
  match mk_RequiredHarvestMetadata obj with
  | inl e => inl e
  | inr req => inr {| required := req; optional := mk_OptionalHarvestMetadata obj |}
  end.

Definition HARVEST_NAME_PREFIX : string := "Linkra".
Definition SCRIPT_NAME : string := "extract_wacz.py".
Definition SCRIPT_VERSION : string := "1.0.0".

(* ------------------------------------------------------------------ *)
(** ** Zip archives *)

(** A [zipfile.ZipInfo]: the member's name inside the archive and its
    (decompressed) bytes. *)
Record ZipInfo := {
  zi_filename : string;
  zi_data : string
}.

(** [ZipInfo.is_dir()] *)
Definition zi_is_dir (zi : ZipInfo) : bool := ends_with_slash (zi_filename zi).

(** A [zipfile.ZipFile] opened from the path [zf_filename]; [filelist] in
    central-directory order. *)
Record ZipFile := {
  zf_filename : string;
  filelist : list ZipInfo
}.

(** [ZipFile.read(name)]: the last member of that name, as in
    [ZipFile.NameToInfo]; [KeyError] when there is none. *)
Definition zip_read (z : ZipFile) (name : string) : exn + string :=
  match List.find (fun zi => String.eqb (zi_filename zi) name) (rev (filelist z)) with
  | Some zi => inr (zi_data zi)
  | None => inl (KeyError name)
  end.

(* ------------------------------------------------------------------ *)
(** ** File system and the [PyIO] monad *)

Inductive node :=
  | Dir
  | File (contents : string).

Abbreviation fsys := (gmap (list string) node).

(** A Python statement: it returns a value or raises, and changes the file
    system in both cases. *)
Definition PyIO (A : Type) : Type := fsys -> (exn + A) * fsys.

Definition io_ret {A} (a : A) : PyIO A := fun fs => (inr a, fs).
Definition io_raise {A} (e : exn) : PyIO A := fun fs => (inl e, fs).
Definition io_bind {A B} (m : PyIO A) (k : A -> PyIO B) : PyIO B :=
  fun fs => match m fs with
            | (inl e, fs') => (inl e, fs')
            | (inr a, fs') => k a fs'
            end.
Definition io_get : PyIO fsys := fun fs => (inr fs, fs).
Definition io_put (fs : fsys) : PyIO unit := fun _ => (inr tt, fs).

(** Lift a pure computation that may raise. *)
Definition io_lift {A} (r : exn + A) : PyIO A :=
  match r with inl e => io_raise e | inr a => io_ret a end.

Notation "'let*' x := m 'in' k" := (io_bind m (fun x => k))
  (at level 200, x name, m at level 100, k at level 200).
Notation "m ;; k" := (io_bind m (fun _ : unit => k))
  (at level 100, right associativity).

(** The segments of a path string: empty and ["."] segments vanish.  A
    [".."] segment is kept as a name: the kernel's resolution of [".."]
    is not modelled, and paths are taken without [".."] components. *)
Definition path_segs (p : string) : list string :=
  List.filter (fun s => negb (String.eqb s "") && negb (String.eqb s ".")) (py_split char_slash p).

(** The node at a path; the working directory always exists. *)
Definition lookup_node (fs : fsys) (p : list string) : option node :=
  match p with
  | [] => Some Dir
  | _ => fs !! p
  end.

Definition parent (p : list string) : list string := removelast p.

Definition node_exists (fs : fsys) (p : list string) : bool :=
  match lookup_node fs p with Some _ => true | None => false end.

Definition node_isdir (fs : fsys) (p : list string) : bool :=
  match lookup_node fs p with Some Dir => true | _ => false end.

(** [os.path.exists] and [os.path.isdir] *)
Definition os_path_exists (path : string) : PyIO bool :=
  fun fs => (inr (node_exists fs (path_segs path)), fs).
Definition os_path_isdir (path : string) : PyIO bool :=
  fun fs => (inr (node_isdir fs (path_segs path)), fs).

(** [p] is a proper prefix of [k]. *)
Definition strict_prefix (p k : list string) : bool :=
  bool_decide (length p < length k) && bool_decide (take (length p) k = p).

Definition has_children (fs : fsys) (p : list string) : bool :=
  existsb (strict_prefix p) (map fst (map_to_list fs)).

(** The kernel's walk down the directories [q], below [seen], for a
    call on [p]: the first component that is a regular file raises
    [NotADirectoryError], the first missing one [FileNotFoundError]. *)
Fixpoint walk_dirs (fs : fsys) (p seen q : list string) : option exn :=
  match q with
  | [] => None
  | x :: rest =>
      match fs !! (seen ++ [x]) with
      | Some Dir => walk_dirs fs p (seen ++ [x]) rest
      | Some (File _) => Some (NotADirectoryError p)
      | None => Some (FileNotFoundError p)
      end
  end.

(** The parent of [p] is a directory: [None], or the error of the path
    resolution.  A directory node is one the walk reaches (every
    operation here creates a node only inside a directory); otherwise the
    walk from the root finds the first missing or non-directory
    component. *)
Definition check_parent (fs : fsys) (p : list string) : option exn :=
  match lookup_node fs (parent p) with
  | Some Dir => None
  | _ => walk_dirs fs p [] (parent p)
  end.

(** The error of a call on the missing path [p]: the walk to its parent,
    or [FileNotFoundError] when the parent is reached. *)
Definition missing_error (fs : fsys) (p : list string) : exn :=
  match walk_dirs fs p [] (parent p) with
  | Some e => e
  | None => FileNotFoundError p
  end.

(** [mkdir(2)] on a path; the empty list is the working directory (or
    the root), which exists. *)
Definition mkdir_segs (p : list string) : PyIO unit := fun fs =>
  match p with
  | [] => (inl (FileExistsError p), fs)
  | _ =>
      match check_parent fs p with
      | Some e => (inl e, fs)
      | None =>
          match fs !! p with
          | Some _ => (inl (FileExistsError p), fs)
          | None => (inr tt, <[p := Dir]> fs)
          end
      end
  end.

(** [os.mkdir(path)] *)
Definition os_mkdir (path : string) : PyIO unit := mkdir_segs (path_segs path).

(** [os.makedirs(name)] with [exist_ok=False], on the reversed path:
    create the missing ancestors first, then [name] itself. *)
Fixpoint makedirs_rev (rp : list string) : PyIO unit :=
  match rp with
  | [] => io_ret tt
  | _ :: rest =>
      let* head_exists := (fun fs => (inr (node_exists fs (rev rest)), fs)) in
      (if negb (bool_decide (rest = [])) && negb head_exists
       then makedirs_rev rest else io_ret tt) ;;
      mkdir_segs (rev rp)
  end.

Definition makedirs_segs (p : list string) : PyIO unit := makedirs_rev (rev p).

(** [os.rmdir(path)]; the empty list is the working directory, whose
    removal is [EINVAL]. *)
Definition os_rmdir (path : string) : PyIO unit := fun fs =>
  let p := path_segs path in
  match lookup_node fs p with
  | None => (inl (missing_error fs p), fs)
  | Some (File _) => (inl (NotADirectoryError p), fs)
  | Some Dir =>
      match p with
      | [] => (inl (InvalidArgument p), fs)
      | _ => if has_children fs p then (inl (DirectoryNotEmpty p), fs)
             else (inr tt, delete p fs)
      end
  end.

(** [open(p, "w")] followed by writing [contents]: creates or truncates. *)
Definition write_file_segs (p : list string) (contents : string) : PyIO unit := fun fs =>
  match check_parent fs p with
  | Some e => (inl e, fs)
  | None =>
      match lookup_node fs p with
      | Some Dir => (inl (IsADirectoryError p), fs)
      | _ => (inr tt, <[p := File contents]> fs)
      end
  end.

(** The nodes below [s] moved below [d]. *)
Definition is_prefix (p k : list string) : bool :=
  bool_decide (length p <= length k) && bool_decide (take (length p) k = p).

Definition move_tree (s d : list string) (fs : fsys) : fsys :=
  list_to_map
    (map (fun kv : list string * node =>
            (if is_prefix s kv.1 then d ++ drop (length s) kv.1 else kv.1, kv.2))
         (map_to_list fs)).

(** [rename(2)] on paths (POSIX: an existing target file is replaced). *)
Definition rename_segs (s d : list string) : PyIO unit := fun fs =>
  match lookup_node fs s with
  | None => (inl (missing_error fs s), fs)
  | Some n =>
      match check_parent fs d with
      | Some e => (inl e, fs)
      | None =>
          match n with
          | File b =>
              match lookup_node fs d with
              | Some Dir => (inl (IsADirectoryError d), fs)
              | _ => (inr tt, <[d := File b]> (delete s fs))
              end
          | Dir =>
              if bool_decide (s = []) then (inl (InvalidArgument s), fs)
              else if bool_decide (s = d) then (inr tt, fs)
              else if is_prefix s d then (inl (InvalidArgument d), fs)
              else match lookup_node fs d with
                   | Some (File _) => (inl (NotADirectoryError d), fs)
                   | Some Dir =>
                       if has_children fs d then (inl (DirectoryNotEmpty d), fs)
                       else (inr tt, move_tree s d (delete d fs))
                   | None => (inr tt, move_tree s d fs)
                   end
          end
      end
  end.

(** [os.rename(src, dst)] *)
Definition os_rename (src dst : string) : PyIO unit :=
  rename_segs (path_segs src) (path_segs dst).

(** [shutil._basename(path)] *)
Definition shutil_basename (p : string) : string := os_path_basename (rstrip_slash p).

(** [shutil._samefile(src, dst)]: both exist and are the same file. *)
Definition shutil_samefile (src dst : string) : PyIO bool := fun fs =>
  (inr (node_exists fs (path_segs src) && node_exists fs (path_segs dst)
        && bool_decide (path_segs src = path_segs dst)), fs).

(** [shutil.move(src, dst)].  Its copy fallback runs only after
    [os.rename] raised; on one file system, for the calls this script makes
    (a file moved onto a non-directory, or a directory moved into a
    directory under a fresh name), the copy raises too, so the fallback is
    not modelled and the rename's exception is propagated. *)
Definition shutil_move (src dst : string) : PyIO unit :=
  let* dst_isdir := os_path_isdir dst in
  if dst_isdir then
    let* same := shutil_samefile src dst in
    if same then os_rename src dst
    else
      let real_dst := os_path_join dst (shutil_basename src) in
      let* real_exists := os_path_exists real_dst in
      if real_exists then io_raise (ShutilError (path_segs real_dst))
      else os_rename src real_dst
  else os_rename src dst.

(** [ZipFile.extract(member, path)] ([ZipFile._extract_member]). *)
Definition zip_extract (zi : ZipInfo) (path : string) : PyIO unit :=
  let arcname := List.filter (fun x => negb (String.eqb x "") && negb (String.eqb x ".")
                                  && negb (String.eqb x ".."))
                        (py_split char_slash (zi_filename zi)) in
  let targetpath := path_segs path ++ arcname in
  let upperdirs := parent targetpath in
  let* upper_exists := (fun fs => (inr (node_exists fs upperdirs), fs)) in
  (if negb (bool_decide (upperdirs = [])) && negb upper_exists
   then makedirs_segs upperdirs else io_ret tt) ;;
  if zi_is_dir zi then
    let* target_isdir := (fun fs => (inr (node_isdir fs targetpath), fs)) in
    if target_isdir then io_ret tt else mkdir_segs targetpath
  else write_file_segs targetpath (zi_data zi).

(* ------------------------------------------------------------------ *)
(** ** The conversion *)

(** The loop of [extract_from_to] over [wacz_zip.filelist]. *)
Fixpoint extract_from_to_loop (from_path to_path : string) (l : list ZipInfo)
    : PyIO unit :=
  match l with
  | [] => io_ret tt
  | zip_info :: rest =>
      (if py_startswith (zi_filename zip_info) from_path then
         zip_extract zip_info to_path ;;
         let filename_without_path := os_path_basename (zi_filename zip_info) in
         shutil_move (os_path_join to_path (zi_filename zip_info))
                     (os_path_join to_path filename_without_path) ;;
         os_rmdir (os_path_join to_path from_path)
       else io_ret tt) ;;
      extract_from_to_loop from_path to_path rest
  end.

(** [extract_from_to(wacz_zip, from_path, to_path)] *)
Definition extract_from_to (wacz_zip : ZipFile) (from_path to_path : string)
    : PyIO unit :=
  extract_from_to_loop from_path to_path (filelist wacz_zip).

(** [extract_warcs(wacz_zip, harvest_path, harvest_name)] *)
Definition extract_warcs (wacz_zip : ZipFile) (harvest_path harvest_name : string)
    : PyIO unit :=
  let ZIP_PATH := "archive/" in
  extract_from_to wacz_zip ZIP_PATH harvest_path ;;
  let data_warc_path := os_path_join harvest_path "data.warc.gz" in
  let correct_warc_path := os_path_join harvest_path (harvest_name +:+ ".warc.gz") in
  let* data_exists := os_path_exists data_warc_path in
  if data_exists then os_rename data_warc_path correct_warc_path else io_ret tt.

(** [extract_indexes(wacz_zip, harvest_path)]; the script does not call it. *)
Definition extract_indexes (wacz_zip : ZipFile) (harvest_path : string) : PyIO unit :=
  let ZIP_PATH := "indexes/" in
  let path := os_path_join harvest_path "logs/cdxj" in
  extract_from_to wacz_zip ZIP_PATH path.

(** [create_directory_structure(harvest_path)] *)
Definition create_directory_structure (harvest_path : string) : PyIO unit :=
  os_mkdir harvest_path ;;
  let logs_path := os_path_join harvest_path "logs" in
  os_mkdir logs_path ;;
  let cdx_path := os_path_join logs_path "cdx" in
  os_mkdir cdx_path ;;
  let crawl_path := os_path_join logs_path "crawl" in
  os_mkdir crawl_path.

(** [get_harvest_name(wacz_zip, harvest_metadata)] *)
Definition get_harvest_name (wacz_zip : ZipFile) (harvest_metadata : HarvestMetadata)
    : string :=
  let prefix := HARVEST_NAME_PREFIX in
  let date := date (required harvest_metadata) in
  let filename := os_path_basename (zf_filename wacz_zip) in
  let filename := py_head (py_split char_dot filename) in
  prefix +:+ "-" +:+ date +:+ "-" +:+ filename.

Definition newline : string := String (ascii_of_nat 10) EmptyString.

(** [if value: print(f"{key}: {value}")] for an optional field: [None] and
    the empty string are false. *)
Definition print_if (key : string) (value : option string) : list string :=
  match value with
  | Some v => if String.eqb v "" then [] else [key +:+ ": " +:+ v]
  | None => []
  end.

(** The lines [create_info_file] prints, in order. *)
Definition info_lines (harvest_metadata : HarvestMetadata)
    (wacz_file_name harvest_name today : string) : list string :=
  ["info: this harvest was extracted from WACZ file";
   "original_file: " +:+ wacz_file_name;
   "converted_with: " +:+ SCRIPT_NAME +:+ " " +:+ SCRIPT_VERSION;
   "conversion_date: " +:+ today;
   "harvest_name: " +:+ harvest_name;
   "wacz_created: " +:+ full_date (required harvest_metadata)]
  ++ print_if "wacz_title" (title (optional harvest_metadata))
  ++ print_if "wacz_software" (software (optional harvest_metadata))
  ++ print_if "wacz_main_page_url" (main_page_url (optional harvest_metadata))
  ++ print_if "wacz_main_page_date" (main_page_date (optional harvest_metadata)).

(** Each [print] writes the line and a newline. *)
Definition print_lines (lines : list string) : string :=
  String.concat "" (map (fun l => l +:+ newline) lines).

(** [create_info_file(...)]; [today] is [datetime.now().isoformat()]. *)
Definition create_info_file (harvest_metadata : HarvestMetadata)
    (harvest_path wacz_file_name harvest_name today : string) : PyIO unit :=
  let info_file_path := os_path_join harvest_path "logs/crawl/info.txt" in
  write_file_segs (path_segs info_file_path)
    (print_lines (info_lines harvest_metadata wacz_file_name harvest_name today)).

Record Arguments := {
  wacz_path : string;
  target_path : string
}.

Section Conversion.

(** [json.loads], decoding the manifest bytes. *)
Variable json_loads : string -> exn + gmap string string.

(** [get_harvest_metadata(wacz_zip)] *)
Definition get_harvest_metadata (wacz_zip : ZipFile) : exn + HarvestMetadata :=
  match zip_read wacz_zip "datapackage.json" with
  | inl e => inl e
  | inr datapackage_data =>
      match json_loads datapackage_data with
      | inl e => inl e
      | inr datapackage_object => mk_HarvestMetadata datapackage_object
      end
  end.

(** [prepare_and_run(args)], the file at [args.wacz_path] holding the zip
    members [members]; [today] is the clock reading of [create_info_file]. *)
Definition prepare_and_run (args : Arguments) (members : list ZipInfo) (today : string)
    : PyIO unit :=
  let wacz_zip := {| zf_filename := wacz_path args; filelist := members |} in
  let* harvest_metadata := io_lift (get_harvest_metadata wacz_zip) in
  let harvest_name := get_harvest_name wacz_zip harvest_metadata in
  let harvest_path := os_path_join (target_path args) harvest_name in
  create_directory_structure harvest_path ;;
  extract_warcs wacz_zip harvest_path harvest_name ;;
  create_info_file harvest_metadata harvest_path
    (os_path_basename (wacz_path args)) harvest_name today.

End Conversion.

(* ------------------------------------------------------------------ *)
(** ** Definitions following the spec's words *)

(** The spec's "strip everything from the first [.] onward". *)
Fixpoint truncate_at_first_dot (s : string) : string :=
  match s with
  | EmptyString => EmptyString
  | String c r => if ascii_dec c char_dot then EmptyString
                  else String c (truncate_at_first_dot r)
  end.

(** The character [c] occurs in [s]. *)
Fixpoint str_has (c : ascii) (s : string) : bool :=
  match s with
  | EmptyString => false
  | String x r => if ascii_dec x c then true else str_has c r
  end.

(** The optional manifest keys and the [info.txt] key of each, in the
    order of the provenance record. *)
Definition optional_fields : list (string * string) :=
  [("title", "wacz_title"); ("software", "wacz_software");
   ("mainPageUrl", "wacz_main_page_url"); ("mainPageDate", "wacz_main_page_date")].

(** The provenance record described for a manifest [obj]: the header and
    the five fixed keys, then one line per optional field present in the
    manifest with a non-empty value. *)
Definition expected_info_lines (obj : gmap string string)
    (wacz_file_name harvest_name today created : string) : list string :=
  ["info: this harvest was extracted from WACZ file";
   "original_file: " +:+ wacz_file_name;
   "converted_with: extract_wacz.py 1.0.0";
   "conversion_date: " +:+ today;
   "harvest_name: " +:+ harvest_name;
   "wacz_created: " +:+ created]
  ++ flat_map (fun kf : string * string =>
                 match obj !! kf.1 with
                 | Some v => if String.eqb v "" then [] else [kf.2 +:+ ": " +:+ v]
                 | None => []
                 end) optional_fields.



(** A single path segment: no ['/'], not [""], ["."] or [".."]. *)
Definition plain_segment (n : string) : bool :=
  negb (str_has char_slash n) && negb (String.eqb n "") && negb (String.eqb n ".")
  && negb (String.eqb n "..").

(** A zip entry outside [<a>/], or a file entry [<a>/<n>] directly in
    [<a>/] whose name [n] is a plain segment other than [a]. *)
Definition flat_or_outside (a : string) (zi : ZipInfo) : Prop :=
  py_startswith (zi_filename zi) (a +:+ "/") = false \/
  exists n, zi_filename zi = a +:+ "/" +:+ n /\ plain_segment n = true /\ n <> a.

(** The files of the entries under [<a>/], each written to [root] under its
    base name, in archive order (a later entry replaces an earlier one of
    the same name). *)
Definition flat_relocation (root : list string) (a : string) (l : list ZipInfo)
    (fs : fsys) : fsys :=
  fold_left (fun fs zi =>
               if py_startswith (zi_filename zi) (a +:+ "/")
               then <[root ++ [os_path_basename (zi_filename zi)] := File (zi_data zi)]> fs
               else fs) l fs.

(** A file [data.warc.gz] in [root] moved to [<name>.warc.gz]; otherwise
    nothing changes. *)
Definition capture_renamed (root : list string) (name : string) (fs : fsys) : fsys :=
  match fs !! (root ++ ["data.warc.gz"]) with
  | Some (File b) => <[root ++ [name +:+ ".warc.gz"] := File b]> (delete (root ++ ["data.warc.gz"]) fs)
  | _ => fs
  end.

(** The four directories of [create_directory_structure] under [r]. *)
Definition with_structure (r : list string) (fs : fsys) : fsys :=
  <[r ++ ["logs"; "crawl"] := Dir]> (<[r ++ ["logs"; "cdx"] := Dir]>
    (<[r ++ ["logs"] := Dir]> (<[r := Dir]> fs))).

(** Concrete inputs used to exercise the theorems. *)

Definition scenario_manifest : gmap string string :=
  <["created" := "2024-03-15T10:00:00Z"]> (<["title" := "Example Site"]> ∅).

Definition scenario_loads (_ : string) : exn + gmap string string := inr scenario_manifest.

Definition scenario_zip : ZipFile :=
  {| zf_filename := "in/crawl-001.v2.wacz";
     filelist := [ {| zi_filename := "datapackage.json"; zi_data := "{}" |};
                   {| zi_filename := "archive/data.warc.gz"; zi_data := "WARC" |} ] |}.

Definition scenario_args : Arguments :=
  {| wacz_path := zf_filename scenario_zip; target_path := "out" |}.

Definition scenario_members : list ZipInfo := filelist scenario_zip.

Definition scenario_fs : fsys := <[["out"] := Dir]> ∅.

Definition scenario_root : list string := ["out"; "Linkra-2024-03-crawl-001"].



Definition scenario_md : HarvestMetadata :=
  {| required := {| full_date := "2024-03-15T10:00:00Z"; date := "2024-03" |};
     optional := {| title := Some "Example Site"; software := None;
                    main_page_url := None; main_page_date := None |} |}.


(** The file system after a first conversion of the scenario archive. *)
Definition scenario_fs_after : fsys :=
  snd (prepare_and_run scenario_loads scenario_args scenario_members
         "2026-01-01T00:00:00" scenario_fs).

Definition datapackage_member : ZipInfo :=
  {| zi_filename := "datapackage.json"; zi_data := "{}" |}.

Definition data_warc_member : ZipInfo :=
  {| zi_filename := "archive/data.warc.gz"; zi_data := "WARC" |}.

(** A capture file in a subdirectory of [archive/], listed first. *)
Definition nested_members : list ZipInfo :=
  [datapackage_member;
   {| zi_filename := "archive/sub/a.warc.gz"; zi_data := "A" |};
   data_warc_member].

(** The directory entry [archive/] of the namespace itself. *)
Definition marker_members : list ZipInfo :=
  [datapackage_member; {| zi_filename := "archive/"; zi_data := "" |}; data_warc_member].

(** A directory entry under [archive/] named like the renamed capture file. *)
Definition dir_target_members : list ZipInfo :=
  [datapackage_member;
   {| zi_filename := "archive/Linkra-2024-03-crawl-001.warc.gz/"; zi_data := "" |};
   data_warc_member].

(** A capture file already named like the renamed capture file. *)
Definition file_target_members : list ZipInfo :=
  [datapackage_member;
   {| zi_filename := "archive/Linkra-2024-03-crawl-001.warc.gz"; zi_data := "OLD" |};
   data_warc_member].

Definition scenario_run (members : list ZipInfo) : (exn + unit) * fsys :=
  prepare_and_run scenario_loads scenario_args members "2026-01-01T00:00:00" scenario_fs.

(** A manifest whose [title] is present but empty. *)
Definition empty_title_manifest : gmap string string :=
  <["created" := "2024-03-15T10:00:00Z"]> (<["title" := ""]> ∅).

Definition scenario_info_path : list string := scenario_root ++ ["logs"; "crawl"; "info.txt"].

(** A destination [out/h] that already exists, with its parent. *)
Definition harvest_fs : fsys := <[["out"; "h"] := Dir]> (<[["out"] := Dir]> ∅).

(** The same destination already holding a file [a.warc.gz]. *)
Definition collision_fs : fsys := <[["out"; "h"; "a.warc.gz"] := File "OLD"]> harvest_fs.

(** The destination [out/h] holding a directory [Linkra-2024-03-x.warc.gz]. *)
Definition dir_named_fs : fsys := <[["out"; "h"; "Linkra-2024-03-x.warc.gz"] := Dir]> harvest_fs.

(** An archive holding only the conventional capture file. *)
Definition capture_zip : ZipFile :=
  {| zf_filename := "x.wacz"; filelist := [data_warc_member] |}.

(** An archive holding a capture file already named [x-1.warc.gz] besides
    the conventional one. *)
Definition rename_zip : ZipFile :=
  {| zf_filename := "x.wacz";
     filelist := [{| zi_filename := "archive/x-1.warc.gz"; zi_data := "OLD" |};
                  data_warc_member] |}.

(** The file system after relocating the entries of [z] into [out/h]. *)
Definition relocated_fs (z : ZipFile) : fsys :=
  snd (extract_from_to z "archive/" "out/h" harvest_fs).

(** An archive holding an index file under [indexes/]. *)
Definition indexes_zip : ZipFile :=
  {| zf_filename := "x.wacz";
     filelist := [datapackage_member; {| zi_filename := "indexes/index.cdxj"; zi_data := "CDXJ" |}] |}.

(** A file system where [out/h/logs/cdxj] exists. *)
Definition cdxj_fs : fsys := <[["out"; "h"; "logs"; "cdxj"] := Dir]> ∅.

(** A [json.loads] that rejects every manifest. *)
Definition failing_loads (_ : string) : exn + gmap string string := inl (ValueError "bad json").

(* ------------------------------------------------------------------ *)
(** ** String lemmas *)

Lemma str_app_nil_l b : "" +:+ b = b.
Proof. reflexivity. Qed.

Lemma str_app_cons x r b : String x r +:+ b = String x (r +:+ b).
Proof. reflexivity. Qed.

Lemma str_app_nil_r a : a +:+ "" = a.
Proof. induction a as [|x r IH]; [reflexivity|]. rewrite str_app_cons, IH. reflexivity. Qed.

Lemma str_app_assoc a b c : (a +:+ b) +:+ c = a +:+ b +:+ c.
Proof. induction a as [|x r IH]; [reflexivity|]. rewrite !str_app_cons, IH. reflexivity. Qed.

Lemma py_slice_to_substring n s : py_slice_to n s = String.substring 0 n s.
Proof.
  revert n; induction s as [|c r IH]; intros [|n]; simpl; try reflexivity.
  by rewrite IH.
Qed.

Lemma py_slice_to_short n s : String.length s <= n -> py_slice_to n s = s.
Proof.
  revert n; induction s as [|c r IH]; intros [|n] Hl; simpl in *; try reflexivity; try lia.
  rewrite IH; [reflexivity | lia].
Qed.

Lemma py_split_cons c s : exists p ps, py_split c s = p :: ps.
Proof.
  induction s as [|x r [p [ps IH]]]; simpl; [by eexists _, _|].
  rewrite IH. destruct (ascii_dec x c); by eexists _, _.
Qed.

Lemma py_head_split_dot s : py_head (py_split char_dot s) = truncate_at_first_dot s.
Proof.
  induction s as [|x r IH]; simpl; [reflexivity|].
  destruct (ascii_dec x char_dot); [reflexivity|].
  destruct (py_split_cons char_dot r) as [p [ps Hs]].
  rewrite Hs in IH |- *. simpl in *. by rewrite IH.
Qed.

Lemma str_has_app c a b : str_has c (a +:+ b) = str_has c a || str_has c b.
Proof.
  induction a as [|x r IH]; simpl; [reflexivity|].
  destruct (ascii_dec x c); [reflexivity | exact IH].
Qed.

(** No piece of a split holds the separator, nor a character absent from
    the whole string. *)
Lemma py_split_pieces c d s :
  (d = c \/ str_has d s = false) -> Forall (fun p => str_has d p = false) (py_split c s).
Proof.
  induction s as [|x r IH]; intros Hd; simpl; [by repeat constructor|].
  assert (IH' : Forall (fun p => str_has d p = false) (py_split c r)).
  { apply IH. destruct Hd as [->|Hd]; [by left|right].
    simpl in Hd. by destruct (ascii_dec x d). }
  destruct (ascii_dec x c) as [Hx|Hx]; [by constructor|].
  destruct (py_split_cons c r) as [p [ps Hs]]. rewrite Hs in IH' |- *.
  inversion IH' as [|? ? Hp Hps]; subst. constructor; [|exact Hps].
  simpl. destruct (ascii_dec x d) as [->|]; [|exact Hp].
  destruct Hd as [->|Hd]; [contradiction|]. simpl in Hd.
  by destruct (ascii_dec d d).
Qed.

Lemma os_path_basename_no_slash p : str_has char_slash (os_path_basename p) = false.
Proof.
  unfold os_path_basename.
  pose proof (py_split_pieces char_slash char_slash p (or_introl eq_refl)) as HF.
  destruct (py_split_cons char_slash p) as [q [qs Hs]]. rewrite Hs in HF |- *.
  apply Forall_forall with (x := List.last (q :: qs) EmptyString) in HF; [exact HF|].
  apply list_elem_of_In. destruct qs using rev_ind; [by left|].
  rewrite app_comm_cons, last_last. apply in_or_app. right. by left.
Qed.

Lemma truncate_no_slash s :
  str_has char_slash s = false -> str_has char_slash (py_head (py_split char_dot s)) = false.
Proof.
  intros Hs. pose proof (py_split_pieces char_dot char_slash s (or_intror Hs)) as HF.
  destruct (py_split_cons char_dot s) as [q [qs Hq]]. rewrite Hq in HF |- *.
  by inversion HF.
Qed.

(* ------------------------------------------------------------------ *)
(** ** Harvest metadata and harvest name *)

(** Claim C1: when the manifest has a [created] string, the date token is
    the first 7 characters of [full_date] and the harvest name is
    [Linkra-<date>-<base filename cut at its first dot>]. *)
Theorem harvest_name_composition (json_loads : string -> exn + gmap string string)
    (z : ZipFile) (d created : string) (obj : gmap string string)
    (Hread : zip_read z "datapackage.json" = inr d)
    (Hjson : json_loads d = inr obj)
    (Hcreated : obj !! "created" = Some created) :
  exists md,
    get_harvest_metadata json_loads z = inr md /\
    full_date (required md) = created /\
    date (required md) = String.substring 0 7 created /\
    get_harvest_name z md =
      HARVEST_NAME_PREFIX +:+ "-" +:+ String.substring 0 7 created +:+ "-"
      +:+ truncate_at_first_dot (os_path_basename (zf_filename z)).
Proof.
  unfold get_harvest_metadata, mk_HarvestMetadata, mk_RequiredHarvestMetadata.
  rewrite Hread, Hjson, Hcreated.
  eexists; split; [reflexivity|]. unfold get_harvest_name. cbn [required date full_date].
  rewrite py_slice_to_substring, py_head_split_dot. auto.
Qed.

Lemma harvest_name_composition_witness :
  zip_read scenario_zip "datapackage.json" = inr "{}" /\
  scenario_loads "{}" = inr scenario_manifest /\
  scenario_manifest !! "created" = Some "2024-03-15T10:00:00Z" /\
  exists md,
    get_harvest_metadata scenario_loads scenario_zip = inr md /\
    full_date (required md) = "2024-03-15T10:00:00Z" /\
    date (required md) = String.substring 0 7 "2024-03-15T10:00:00Z" /\
    get_harvest_name scenario_zip md =
      HARVEST_NAME_PREFIX +:+ "-" +:+ String.substring 0 7 "2024-03-15T10:00:00Z" +:+ "-"
      +:+ truncate_at_first_dot (os_path_basename (zf_filename scenario_zip)).
Proof.
  split; [reflexivity|]. split; [reflexivity|]. split; [vm_compute; reflexivity|].
  apply (harvest_name_composition scenario_loads scenario_zip "{}" "2024-03-15T10:00:00Z"
           scenario_manifest); [reflexivity | reflexivity | vm_compute; reflexivity].
Defined.

(** Claim C10: a [created] string shorter than 7 characters is accepted as
    it is; the slice is total and its whole value is the date token. *)
Theorem short_created_total (obj : gmap string string) (s : string)
    (Hcreated : obj !! "created" = Some s) (Hshort : String.length s < 7) :
  mk_RequiredHarvestMetadata obj = inr {| full_date := s; date := s |}.
Proof.
  unfold mk_RequiredHarvestMetadata. rewrite Hcreated.
  rewrite py_slice_to_short by lia. reflexivity.
Qed.

Lemma short_created_total_witness :
  (<["created" := "2024"]> ∅ : gmap string string) !! "created" = Some "2024" /\
  String.length "2024" < 7 /\
  mk_RequiredHarvestMetadata (<["created" := "2024"]> ∅)
    = inr {| full_date := "2024"; date := "2024" |}.
Proof.
  split; [vm_compute; reflexivity|]. split; [simpl; lia|].
  apply short_created_total; [vm_compute; reflexivity | simpl; lia].
Defined.

(** Claim C9 fails: a [created] value with a ['/'] in its first 7
    characters puts a path separator into the harvest name. *)
Lemma harvest_name_separator_counterexample :
  exists md,
    mk_HarvestMetadata (<["created" := "2024/03/15"]> ∅) = inr md /\
    get_harvest_name scenario_zip md = "Linkra-2024/03-crawl-001" /\
    str_has char_slash (get_harvest_name scenario_zip md) = true.
Proof. eexists. split; [vm_compute; reflexivity|]. vm_compute. split; reflexivity. Qed.

(** Claim C9, amended: the harvest name has no ['/'] when the first 7
    characters of [created] have none; the file-name part never has one. *)
Theorem harvest_name_no_separator (z : ZipFile) (obj : gmap string string)
    (created : string) (md : HarvestMetadata)
    (Hcreated : obj !! "created" = Some created)
    (Hdate : str_has char_slash (String.substring 0 7 created) = false)
    (Hmd : mk_HarvestMetadata obj = inr md) :
  str_has char_slash (get_harvest_name z md) = false.
Proof.
  unfold mk_HarvestMetadata, mk_RequiredHarvestMetadata in Hmd.
  rewrite Hcreated, py_slice_to_substring in Hmd.
  remember (String.substring 0 7 created) as d eqn:Hd.
  injection Hmd as <-. unfold get_harvest_name. cbn [required date].
  rewrite !str_has_app, Hdate.
  rewrite truncate_no_slash by apply os_path_basename_no_slash.
  reflexivity.
Qed.

Lemma harvest_name_no_separator_witness :
  exists md,
    (<["created" := "2024-03-15"]> ∅ : gmap string string) !! "created" = Some "2024-03-15" /\
    str_has char_slash (String.substring 0 7 "2024-03-15") = false /\
    mk_HarvestMetadata (<["created" := "2024-03-15"]> ∅) = inr md /\
    str_has char_slash (get_harvest_name scenario_zip md) = false.
Proof.
  eexists. split; [vm_compute; reflexivity|]. split; [vm_compute; reflexivity|].
  split; [vm_compute; reflexivity|].
  apply (harvest_name_no_separator scenario_zip (<["created" := "2024-03-15"]> ∅) "2024-03-15");
    vm_compute; reflexivity.
Defined.

(* ------------------------------------------------------------------ *)
(** ** Path lemmas *)

Lemma py_split_app_sep c a b :
  py_split c (a +:+ String c b) = py_split c a ++ py_split c b.
Proof.
  induction a as [|x r IH].
  - simpl. destruct (ascii_dec c c); [reflexivity | contradiction].
  - rewrite str_app_cons. simpl. rewrite IH.
    destruct (ascii_dec x c); [reflexivity|].
    destruct (py_split_cons c r) as [p [ps ->]]. reflexivity.
Qed.

Lemma path_segs_app_slash a b : path_segs (a +:+ "/" +:+ b) = path_segs a ++ path_segs b.
Proof.
  unfold path_segs. change ("/" +:+ b) with (String char_slash b).
  rewrite py_split_app_sep. apply List.filter_app.
Qed.

Lemma path_segs_empty : path_segs "" = [].
Proof. reflexivity. Qed.

Lemma ends_with_slash_inv a : ends_with_slash a = true -> exists a', a = a' +:+ "/".
Proof.
  unfold ends_with_slash. induction a as [|x r IH]; [discriminate|].
  destruct r as [|y r'].
  - simpl. destruct (ascii_dec x char_slash) as [->|]; [|discriminate].
    intros _. exists "". reflexivity.
  - intros H. destruct IH as [a' ->].
    { simpl in H |- *. rewrite ?Nat.sub_0_r in *. exact H. }
    exists (String x a'). reflexivity.
Qed.

Lemma path_segs_join a b :
  String.prefix "/" b = false -> path_segs (os_path_join a b) = path_segs a ++ path_segs b.
Proof.
  intros Hb. unfold os_path_join. rewrite Hb.
  destruct (String.eqb a "") eqn:Ha.
  { apply String.eqb_eq in Ha as ->. reflexivity. }
  destruct (ends_with_slash a) eqn:He; simpl.
  - destruct (ends_with_slash_inv a He) as [a' ->].
    rewrite str_app_assoc, path_segs_app_slash.
    rewrite <- (str_app_nil_r (a' +:+ "/")), str_app_assoc, path_segs_app_slash, path_segs_empty.
    by rewrite app_nil_r.
  - apply path_segs_app_slash.
Qed.

(* ------------------------------------------------------------------ *)
(** ** File-system lemmas *)

Lemma lookup_node_nonempty (fs : fsys) (p : list string) : p <> [] -> lookup_node fs p = fs !! p.
Proof. by destruct p. Qed.

Lemma parent_snoc (r : list string) x : parent (r ++ [x]) = r.
Proof. apply removelast_last. Qed.

Lemma snoc_neq (r : list string) x : r ++ [x] <> r.
Proof. intros H. apply (f_equal length) in H. rewrite length_app in H. simpl in H. lia. Qed.

Lemma snoc_nonempty (r : list string) x : r ++ [x] <> [].
Proof. destruct r; discriminate. Qed.

(** One [mkdir(2)] whose parent is a directory. *)
Lemma mkdir_step (p : list string) (fs : fsys) :
  p <> [] -> lookup_node fs (parent p) = Some Dir ->
  mkdir_segs p fs = match fs !! p with
                    | Some _ => (inl (FileExistsError p), fs)
                    | None => (inr tt, <[p := Dir]> fs)
                    end.
Proof. intros Hp Hpar. destruct p as [|s p]; [contradiction|]. simpl. unfold check_parent. by rewrite Hpar. Qed.






Lemma path_segs_join_name a x :
  String.prefix "/" x = false -> path_segs x = [x] -> path_segs (os_path_join a x) = path_segs a ++ [x].
Proof. intros H1 H2. by rewrite path_segs_join, H2. Qed.

(** [create_directory_structure] as four [mkdir(2)] calls. *)
Lemma create_directory_structure_mkdirs (harvest_path : string) (fs : fsys) :
  let r := path_segs harvest_path in
  create_directory_structure harvest_path fs =
  (mkdir_segs r ;;
   mkdir_segs (r ++ ["logs"]) ;;
   mkdir_segs ((r ++ ["logs"]) ++ ["cdx"]) ;;
   mkdir_segs ((r ++ ["logs"]) ++ ["crawl"])) fs.
Proof.
  unfold create_directory_structure, os_mkdir.
  rewrite !path_segs_join_name by reflexivity. reflexivity.
Qed.

Ltac mkdir_fresh :=
  rewrite mkdir_step;
  [ | solve [apply snoc_nonempty | assumption]
    | rewrite ?parent_snoc, ?lookup_node_nonempty, ?lookup_insert_eq;
      [reflexivity | solve [apply snoc_nonempty | assumption] ..] ].

(** The four [mkdir] steps, each stopping at an existing target and
    keeping the directories made before it. *)
Lemma create_directory_structure_cases (harvest_path : string) (fs : fsys) :
  let r := path_segs harvest_path in
  let l := r ++ ["logs"] in
  let c := l ++ ["cdx"] in
  let w := l ++ ["crawl"] in
  r <> [] ->
  (lookup_node fs (parent r) = Some Dir ->
     (is_Some (fs !! r) ->
        create_directory_structure harvest_path fs = (inl (FileExistsError r), fs)) /\
     (fs !! r = None -> is_Some (fs !! l) ->
        create_directory_structure harvest_path fs
        = (inl (FileExistsError l), <[r := Dir]> fs)) /\
     (fs !! r = None -> fs !! l = None -> is_Some (fs !! c) ->
        create_directory_structure harvest_path fs
        = (inl (FileExistsError c), <[l := Dir]> (<[r := Dir]> fs))) /\
     (fs !! r = None -> fs !! l = None -> fs !! c = None -> is_Some (fs !! w) ->
        create_directory_structure harvest_path fs
        = (inl (FileExistsError w), <[c := Dir]> (<[l := Dir]> (<[r := Dir]> fs)))) /\
     (fs !! r = None -> fs !! l = None -> fs !! c = None -> fs !! w = None ->
        create_directory_structure harvest_path fs
        = (inr tt, <[w := Dir]> (<[c := Dir]> (<[l := Dir]> (<[r := Dir]> fs)))))).
Proof.
  intros r l c w Hr. rewrite create_directory_structure_mkdirs. fold r.
  subst l c w. clearbody r.
  assert (Hlr : r ++ ["logs"] <> r) by apply snoc_neq.
  assert (Hcl : (r ++ ["logs"]) ++ ["cdx"] <> r ++ ["logs"]) by apply snoc_neq.
  assert (Hwl : (r ++ ["logs"]) ++ ["crawl"] <> r ++ ["logs"]) by apply snoc_neq.
  assert (Hcr : (r ++ ["logs"]) ++ ["cdx"] <> r).
  { intros E. apply (f_equal length) in E. rewrite !length_app in E. simpl in E. lia. }
  assert (Hwr : (r ++ ["logs"]) ++ ["crawl"] <> r).
  { intros E. apply (f_equal length) in E. rewrite !length_app in E. simpl in E. lia. }
  assert (Hwc : (r ++ ["logs"]) ++ ["crawl"] <> (r ++ ["logs"]) ++ ["cdx"]).
  { intros E. apply app_inj_tail in E as [_ E]. discriminate. }
  intros Hpar. unfold io_bind.
  rewrite (mkdir_step r fs Hr Hpar).
  split; [intros [? ->]; reflexivity|].
  split; [intros Hr0 [? Hl]; rewrite Hr0; mkdir_fresh; by rewrite lookup_insert_ne, Hl|].
  split.
  { intros Hr0 Hl0 [? Hc]. rewrite Hr0. mkdir_fresh. rewrite lookup_insert_ne, Hl0 by done.
    mkdir_fresh. by rewrite !lookup_insert_ne, Hc. }
  split.
  { intros Hr0 Hl0 Hc0 [? Hw]. rewrite Hr0. mkdir_fresh. rewrite lookup_insert_ne, Hl0 by done.
    mkdir_fresh. rewrite !lookup_insert_ne, Hc0 by done.
    rewrite mkdir_step; [| apply snoc_nonempty |].
    - by rewrite !lookup_insert_ne, Hw.
    - rewrite parent_snoc, lookup_node_nonempty by apply snoc_nonempty.
      rewrite lookup_insert_ne by done. apply lookup_insert_eq. }
  intros Hr0 Hl0 Hc0 Hw0. rewrite Hr0. mkdir_fresh. rewrite lookup_insert_ne, Hl0 by done.
  mkdir_fresh. rewrite !lookup_insert_ne, Hc0 by done.
  rewrite mkdir_step; [| apply snoc_nonempty |].
  - by rewrite !lookup_insert_ne, Hw0.
  - rewrite parent_snoc, lookup_node_nonempty by apply snoc_nonempty.
    rewrite lookup_insert_ne by done. apply lookup_insert_eq.
Qed.

(** The metadata step of [prepare_and_run] when it succeeds. *)
Lemma prepare_and_run_metadata (json_loads : string -> exn + gmap string string)
    (args : Arguments) (members : list ZipInfo) (today : string) (fs : fsys)
    (md : HarvestMetadata) :
  let wacz_zip := {| zf_filename := wacz_path args; filelist := members |} in
  get_harvest_metadata json_loads wacz_zip = inr md ->
  prepare_and_run json_loads args members today fs =
  (let harvest_name := get_harvest_name wacz_zip md in
   let harvest_path := os_path_join (target_path args) harvest_name in
   create_directory_structure harvest_path ;;
   extract_warcs wacz_zip harvest_path harvest_name ;;
   create_info_file md harvest_path (os_path_basename (wacz_path args)) harvest_name today) fs.
Proof. intros wacz_zip H. unfold prepare_and_run. fold wacz_zip. rewrite H. reflexivity. Qed.


(** Claim C2: a manifest without [created] makes the conversion raise the
    [ValueError] of [RequiredHarvestMetadata] (the spec's
    [MissingRequiredField]) before any file-system change. *)
Theorem missing_created_no_side_effect (json_loads : string -> exn + gmap string string)
    (args : Arguments) (members : list ZipInfo) (today : string) (fs : fsys)
    (d : string) (obj : gmap string string)
    (Hread : zip_read {| zf_filename := wacz_path args; filelist := members |}
               "datapackage.json" = inr d)
    (Hjson : json_loads d = inr obj)
    (Hnone : obj !! "created" = None) :
  prepare_and_run json_loads args members today fs
  = (inl (ValueError missing_created_msg), fs).
Proof.
  unfold prepare_and_run, io_bind, io_lift, get_harvest_metadata.
  rewrite Hread, Hjson. unfold mk_HarvestMetadata, mk_RequiredHarvestMetadata.
  rewrite Hnone. reflexivity.
Qed.

Lemma missing_created_no_side_effect_witness :
  zip_read {| zf_filename := wacz_path scenario_args; filelist := scenario_members |}
    "datapackage.json" = inr "{}" /\
  (fun _ : string => inr (<["title" := "t"]> ∅) : exn + gmap string string) "{}"
    = inr (<["title" := "t"]> ∅) /\
  (<["title" := "t"]> ∅ : gmap string string) !! "created" = None /\
  prepare_and_run (fun _ => inr (<["title" := "t"]> ∅)) scenario_args scenario_members
    "2026-01-01T00:00:00" scenario_fs
  = (inl (ValueError missing_created_msg), scenario_fs).
Proof.
  split; [reflexivity|]. split; [reflexivity|]. split; [vm_compute; reflexivity|].
  apply (missing_created_no_side_effect _ _ _ _ _ "{}" (<["title" := "t"]> ∅));
    [reflexivity | reflexivity | vm_compute; reflexivity].
Defined.



(* ------------------------------------------------------------------ *)
(** ** Relocation of the [archive/] entries *)

(** Claim C3 (the code falls short): an entry in a subdirectory of
    [archive/] is moved to the harvest root, but [os.rmdir] of
    [<harvest>/archive/] then fails because [archive/sub] is left in it;
    the conversion stops there and the later [archive/data.warc.gz] never
    reaches the output. *)
Theorem nested_entry_aborts_relocation :
  fst (scenario_run nested_members)
    = inl (DirectoryNotEmpty (scenario_root ++ ["archive"])) /\
  snd (scenario_run nested_members) !! (scenario_root ++ ["a.warc.gz"]) = Some (File "A") /\
  snd (scenario_run nested_members) !! (scenario_root ++ ["data.warc.gz"]) = None /\
  snd (scenario_run nested_members)
    !! (scenario_root ++ ["Linkra-2024-03-crawl-001.warc.gz"]) = None.
Proof. vm_compute. repeat split. Qed.

(** Claim C8 (the code falls short): the directory entry [archive/] is
    not skipped; [ZipFile.extract] makes [<harvest>/archive], and
    [shutil.move] of it into [<harvest>/] raises [shutil.Error] because
    the destination [<harvest>/archive] is the directory itself. *)
Theorem directory_marker_raises :
  fst (scenario_run marker_members) = inl (ShutilError (scenario_root ++ ["archive"])) /\
  snd (scenario_run marker_members) !! (scenario_root ++ ["archive"]) = Some Dir.
Proof. vm_compute. split; reflexivity. Qed.

(** Claim C6 fails: when a directory already has the new name, the
    rename raises [IsADirectoryError] and [data.warc.gz] stays. *)
Lemma rename_onto_directory_counterexample :
  fst (scenario_run dir_target_members)
    = inl (IsADirectoryError (scenario_root ++ ["Linkra-2024-03-crawl-001.warc.gz"])) /\
  snd (scenario_run dir_target_members) !! (scenario_root ++ ["data.warc.gz"])
    = Some (File "WARC").
Proof. vm_compute. split; reflexivity. Qed.

(** Claim C7 fails: a relocated file replaces the file at its flat target,
    and the renamed capture file replaces a relocated file of the new name;
    no error is raised. *)
Lemma collision_overwrites_counterexample :
  extract_from_to {| zf_filename := "x.wacz";
                     filelist := [{| zi_filename := "archive/a.warc.gz"; zi_data := "NEW" |}] |}
    "archive/" "out/h"
    (<[["out"; "h"; "a.warc.gz"] := File "OLD"]> (<[["out"; "h"] := Dir]> (<[["out"] := Dir]> ∅)))
  = (inr tt, <[["out"; "h"; "a.warc.gz"] := File "NEW"]>
               (<[["out"; "h"] := Dir]> (<[["out"] := Dir]> ∅))) /\
  fst (scenario_run file_target_members) = inr tt /\
  snd (scenario_run file_target_members)
    !! (scenario_root ++ ["Linkra-2024-03-crawl-001.warc.gz"]) = Some (File "WARC").
Proof. vm_compute. repeat split. Qed.

(* ------------------------------------------------------------------ *)
(** ** The provenance record *)

(** Claim C4 fails: a [title] present with the empty value gets no
    [wacz_title] line, since [create_info_file] tests the value's truth. *)
Lemma empty_title_counterexample :
  empty_title_manifest !! "title" = Some "" /\
  snd (prepare_and_run (fun _ => inr empty_title_manifest) scenario_args scenario_members
         "2026-01-01T00:00:00" scenario_fs) !! scenario_info_path
  = Some (File (print_lines
      ["info: this harvest was extracted from WACZ file";
       "original_file: crawl-001.v2.wacz";
       "converted_with: extract_wacz.py 1.0.0";
       "conversion_date: 2026-01-01T00:00:00";
       "harvest_name: Linkra-2024-03-crawl-001";
       "wacz_created: 2024-03-15T10:00:00Z"])).
Proof. vm_compute. split; reflexivity. Qed.

Lemma info_lines_expected (obj : gmap string string) (md : HarvestMetadata)
    (created wacz_file_name harvest_name today : string) :
  obj !! "created" = Some created -> mk_HarvestMetadata obj = inr md ->
  info_lines md wacz_file_name harvest_name today
  = expected_info_lines obj wacz_file_name harvest_name today created.
Proof.
  intros Hc Hmd. unfold mk_HarvestMetadata, mk_RequiredHarvestMetadata in Hmd.
  rewrite Hc in Hmd. injection Hmd as <-.
  unfold info_lines, expected_info_lines, optional_fields. cbn [required optional full_date
    title software main_page_url main_page_date flat_map fst snd mk_OptionalHarvestMetadata].
  rewrite !app_nil_r. reflexivity.
Qed.

(** Claim C4, amended: [logs/crawl/info.txt] holds the header line, then
    [original_file], [converted_with], [conversion_date], [harvest_name] and
    [wacz_created], then a [wacz_title], [wacz_software],
    [wacz_main_page_url], [wacz_main_page_date] line, in this order, for each
    of [title], [software], [mainPageUrl], [mainPageDate] that the manifest
    has with a non-empty value, and no other line. *)
Theorem info_file_contents (obj : gmap string string) (md : HarvestMetadata)
    (created harvest_path wacz_file_name harvest_name today : string) (fs : fsys)
    (Hcreated : obj !! "created" = Some created)
    (Hmd : mk_HarvestMetadata obj = inr md)
    (Hcrawl : lookup_node fs (path_segs harvest_path ++ ["logs"; "crawl"]) = Some Dir)
    (Hfile : fs !! (path_segs harvest_path ++ ["logs"; "crawl"; "info.txt"]) <> Some Dir) :
  create_info_file md harvest_path wacz_file_name harvest_name today fs
  = (inr tt, <[path_segs harvest_path ++ ["logs"; "crawl"; "info.txt"] :=
               File (print_lines (expected_info_lines obj wacz_file_name harvest_name
                                    today created))]> fs).
Proof.
  unfold create_info_file. rewrite path_segs_join by reflexivity.
  change (path_segs "logs/crawl/info.txt") with ["logs"; "crawl"; "info.txt"].
  rewrite (info_lines_expected obj md created) by assumption.
  unfold write_file_segs, check_parent.
  replace (parent (path_segs harvest_path ++ ["logs"; "crawl"; "info.txt"]))
    with (path_segs harvest_path ++ ["logs"; "crawl"])
    by (unfold parent; change ["logs"; "crawl"; "info.txt"] with (["logs"; "crawl"] ++ ["info.txt"]);
        rewrite app_assoc, removelast_last; reflexivity).
  rewrite Hcrawl, lookup_node_nonempty by (destruct (path_segs harvest_path); discriminate).
  destruct (fs !! _) as [[|]|]; [contradiction | reflexivity | reflexivity].
Qed.

Lemma info_file_contents_witness :
  let hp := "out/h" in
  let fs := <[["out"; "h"; "logs"; "crawl"] := Dir]> ∅ in
  scenario_manifest !! "created" = Some "2024-03-15T10:00:00Z" /\
  mk_HarvestMetadata scenario_manifest = inr scenario_md /\
  lookup_node fs (path_segs hp ++ ["logs"; "crawl"]) = Some Dir /\
  fs !! (path_segs hp ++ ["logs"; "crawl"; "info.txt"]) <> Some Dir /\
  create_info_file scenario_md hp "crawl-001.wacz" "h" "2026-01-01T00:00:00" fs
  = (inr tt, <[path_segs hp ++ ["logs"; "crawl"; "info.txt"] :=
               File (print_lines (expected_info_lines scenario_manifest "crawl-001.wacz" "h"
                                    "2026-01-01T00:00:00" "2024-03-15T10:00:00Z"))]> fs).
Proof.
  intros hp fs.
  split; [vm_compute; reflexivity|]. split; [vm_compute; reflexivity|].
  split; [vm_compute; reflexivity|]. split; [vm_compute; discriminate|].
  apply info_file_contents;
    [vm_compute; reflexivity | vm_compute; reflexivity | vm_compute; reflexivity
    | vm_compute; discriminate].
Defined.

(* ------------------------------------------------------------------ *)
(** ** Plain names *)

Lemma py_split_no_sep c s : str_has c s = false -> py_split c s = [s].
Proof.
  induction s as [|x r IH]; simpl; [reflexivity|].
  destruct (ascii_dec x c); [discriminate|]. intros H. by rewrite IH.
Qed.

Lemma prefix_slash_has s : String.prefix "/" s = true -> str_has char_slash s = true.
Proof.
  destruct s as [|x r]; [discriminate|]. cbn [String.prefix str_has].
  destruct (ascii_dec "/"%char x) as [Hx|Hx]; [|discriminate].
  intros _. rewrite <- Hx. reflexivity.
Qed.

Lemma prefix_slash_false s : str_has char_slash s = false -> String.prefix "/" s = false.
Proof.
  intros H. destruct (String.prefix "/" s) eqn:E; [|reflexivity].
  apply prefix_slash_has in E. congruence.
Qed.

(** A name without ['/'], other than [""] and ["."], is one path segment. *)
Lemma path_segs_plain s :
  str_has char_slash s = false -> s <> "" -> s <> "." -> path_segs s = [s].
Proof.
  intros Hs H1 H2. unfold path_segs. rewrite py_split_no_sep by exact Hs.
  simpl. apply String.eqb_neq in H1, H2. by rewrite H1, H2.
Qed.

Lemma list_ascii_of_string_app a b :
  String.list_ascii_of_string (a +:+ b) = String.list_ascii_of_string a ++ String.list_ascii_of_string b.
Proof.
  induction a as [|x r IH]; [reflexivity|]. rewrite str_app_cons. simpl. by rewrite IH.
Qed.

Lemma str_length_app a b : String.length (a +:+ b) = String.length a + String.length b.
Proof. induction a as [|x r IH]; [reflexivity|]. rewrite str_app_cons. simpl. by rewrite IH. Qed.

Lemma str_app_inj_r a b c : a +:+ c = b +:+ c -> a = b.
Proof.
  intros H. apply (f_equal String.list_ascii_of_string) in H.
  rewrite !list_ascii_of_string_app in H. apply app_inv_tail in H.
  rewrite <- (String.string_of_list_ascii_of_string a), <- (String.string_of_list_ascii_of_string b).
  by rewrite H.
Qed.

Lemma warc_name_segs name :
  str_has char_slash name = false ->
  path_segs (name +:+ ".warc.gz") = [name +:+ ".warc.gz"] /\
  String.prefix "/" (name +:+ ".warc.gz") = false.
Proof.
  intros Hn.
  assert (Hs : str_has char_slash (name +:+ ".warc.gz") = false)
    by (rewrite str_has_app, Hn; reflexivity).
  split; [|by apply prefix_slash_false].
  apply path_segs_plain; [exact Hs| |].
  - intros E. apply (f_equal String.length) in E.
    rewrite str_length_app in E. simpl in E. lia.
  - intros E. apply (f_equal String.length) in E.
    rewrite str_length_app in E. simpl in E. lia.
Qed.

(* ------------------------------------------------------------------ *)
(** ** Renaming the capture file *)

(** [rename(2)] of a file onto a path that is not a directory. *)
Lemma rename_file_step (s d : list string) (fs : fsys) (b : string) :
  s <> [] -> d <> [] -> fs !! s = Some (File b) ->
  lookup_node fs (parent d) = Some Dir -> fs !! d <> Some Dir ->
  rename_segs s d fs = (inr tt, <[d := File b]> (delete s fs)).
Proof.
  intros Hs Hd Hb Hpar Hnd. unfold rename_segs.
  rewrite (lookup_node_nonempty fs s Hs), Hb. unfold check_parent. rewrite Hpar.
  rewrite (lookup_node_nonempty fs d Hd).
  destruct (fs !! d) as [[|]|]; [contradiction | reflexivity | reflexivity].
Qed.

Lemma data_warc_segs hp : path_segs (os_path_join hp "data.warc.gz") = path_segs hp ++ ["data.warc.gz"].
Proof. by rewrite path_segs_join_name. Qed.

Lemma warc_path_segs hp name :
  str_has char_slash name = false ->
  path_segs (os_path_join hp (name +:+ ".warc.gz")) = path_segs hp ++ [name +:+ ".warc.gz"].
Proof. intros Hn. destruct (warc_name_segs name Hn). by apply path_segs_join_name. Qed.

(** [extract_warcs] after a relocation that ended with [fs1]. *)
Lemma extract_warcs_after (z : ZipFile) (hp name : string) (fs fs1 : fsys) :
  extract_from_to z "archive/" hp fs = (inr tt, fs1) ->
  extract_warcs z hp name fs =
  (if node_exists fs1 (path_segs hp ++ ["data.warc.gz"])
   then rename_segs (path_segs hp ++ ["data.warc.gz"])
                    (path_segs (os_path_join hp (name +:+ ".warc.gz"))) fs1
   else (inr tt, fs1)).
Proof.
  intros Hext. unfold extract_warcs. cbv zeta. unfold io_bind at 1. rewrite Hext.
  unfold io_bind, os_path_exists, os_rename. rewrite data_warc_segs.
  by destruct (node_exists fs1 _).
Qed.

(** The rename of [data.warc.gz] onto a path without a directory. *)
Lemma extract_warcs_rename_file (z : ZipFile) (hp name b : string) (fs fs1 : fsys) :
  extract_from_to z "archive/" hp fs = (inr tt, fs1) ->
  str_has char_slash name = false ->
  fs1 !! (path_segs hp ++ ["data.warc.gz"]) = Some (File b) ->
  lookup_node fs1 (path_segs hp) = Some Dir ->
  fs1 !! (path_segs hp ++ [name +:+ ".warc.gz"]) <> Some Dir ->
  extract_warcs z hp name fs
  = (inr tt, <[path_segs hp ++ [name +:+ ".warc.gz"] := File b]>
               (delete (path_segs hp ++ ["data.warc.gz"]) fs1)).
Proof.
  intros Hext Hn Hb Hroot Hnd. rewrite (extract_warcs_after z hp name fs fs1 Hext).
  unfold node_exists. rewrite lookup_node_nonempty, Hb by apply snoc_nonempty.
  rewrite warc_path_segs by exact Hn.
  apply rename_file_step; [apply snoc_nonempty | apply snoc_nonempty | exact Hb | | exact Hnd].
  by rewrite parent_snoc.
Qed.

Lemma extract_warcs_no_data (z : ZipFile) (hp name : string) (fs fs1 : fsys) :
  extract_from_to z "archive/" hp fs = (inr tt, fs1) ->
  fs1 !! (path_segs hp ++ ["data.warc.gz"]) = None ->
  extract_warcs z hp name fs = (inr tt, fs1).
Proof.
  intros Hext Hnone. rewrite (extract_warcs_after z hp name fs fs1 Hext).
  unfold node_exists. by rewrite lookup_node_nonempty, Hnone by apply snoc_nonempty.
Qed.

(** Claim C6, amended: after the relocation, a file [data.warc.gz] at the
    harvest root is renamed to [<harvest name>.warc.gz] (gone under the
    old name, the same bytes under the new one, every other path
    unchanged), provided the harvest name has no ['/'] and no directory has
    the new name; when a directory has the new name, the rename raises
    [IsADirectoryError] and the file system, [data.warc.gz] included, stays
    as the relocation left it; if there is no [data.warc.gz], nothing
    changes. *)
Theorem capture_file_rename (z : ZipFile) (hp name : string) (fs fs1 : fsys)
    (Hext : extract_from_to z "archive/" hp fs = (inr tt, fs1))
    (Hname : str_has char_slash name = false)
    (Hdata : name <> "data") :
  (forall b,
     fs1 !! (path_segs hp ++ ["data.warc.gz"]) = Some (File b) ->
     lookup_node fs1 (path_segs hp) = Some Dir ->
     fs1 !! (path_segs hp ++ [name +:+ ".warc.gz"]) <> Some Dir ->
     exists fs2,
       extract_warcs z hp name fs = (inr tt, fs2) /\
       fs2 !! (path_segs hp ++ ["data.warc.gz"]) = None /\
       fs2 !! (path_segs hp ++ [name +:+ ".warc.gz"]) = Some (File b) /\
       (forall k, k <> path_segs hp ++ ["data.warc.gz"] ->
                  k <> path_segs hp ++ [name +:+ ".warc.gz"] -> fs2 !! k = fs1 !! k)) /\
  (forall b,
     fs1 !! (path_segs hp ++ ["data.warc.gz"]) = Some (File b) ->
     lookup_node fs1 (path_segs hp) = Some Dir ->
     fs1 !! (path_segs hp ++ [name +:+ ".warc.gz"]) = Some Dir ->
     extract_warcs z hp name fs
     = (inl (IsADirectoryError (path_segs hp ++ [name +:+ ".warc.gz"])), fs1)) /\
  (fs1 !! (path_segs hp ++ ["data.warc.gz"]) = None ->
     extract_warcs z hp name fs = (inr tt, fs1)).
Proof.
  split; [|split].
  - intros b Hb Hroot Hnd.
    eexists. split; [exact (extract_warcs_rename_file z hp name b fs fs1 Hext Hname Hb Hroot Hnd)|].
    assert (Hne : path_segs hp ++ [name +:+ ".warc.gz"] <> path_segs hp ++ ["data.warc.gz"]).
    { intros E. apply app_inj_tail in E as [_ E]. apply Hdata.
      apply (str_app_inj_r _ _ ".warc.gz"). exact E. }
    split; [|split].
    + rewrite lookup_insert_ne by (intros E; apply Hne; congruence).
      apply lookup_delete_eq.
    + apply lookup_insert_eq.
    + intros k Hk1 Hk2.
      rewrite lookup_insert_ne by (intros E; apply Hk2; congruence).
      rewrite lookup_delete_ne by (intros E; apply Hk1; congruence). reflexivity.
  - intros b Hb Hroot Hd. rewrite (extract_warcs_after z hp name fs fs1 Hext).
    unfold node_exists. rewrite lookup_node_nonempty, Hb by apply snoc_nonempty.
    rewrite warc_path_segs by exact Hname.
    unfold rename_segs. rewrite lookup_node_nonempty, Hb by apply snoc_nonempty.
    unfold check_parent. rewrite parent_snoc, Hroot.
    rewrite lookup_node_nonempty, Hd by apply snoc_nonempty. reflexivity.
  - apply extract_warcs_no_data. exact Hext.
Qed.

(* ------------------------------------------------------------------ *)
(** ** Relocating one flat entry *)

Lemma has_children_false (fs : fsys) (p : list string) :
  (forall k v, fs !! k = Some v -> strict_prefix p k = false) -> has_children fs p = false.
Proof.
  intros H. unfold has_children. apply not_true_iff_false. intros Hex.
  apply existsb_exists in Hex as [k [Hin Hk]].
  apply in_map_iff in Hin as [[k' v] [Hkk Hin]]. simpl in Hkk. subst k'.
  apply list_elem_of_In, elem_of_map_to_list in Hin.
  rewrite (H k v Hin) in Hk. discriminate.
Qed.

Lemma strict_prefix_is_prefix (p k : list string) :
  strict_prefix p k = true -> is_prefix p k = true.
Proof.
  unfold strict_prefix, is_prefix. rewrite !andb_true_iff, !bool_decide_eq_true.
  intros [H1 H2]. split; [lia | exact H2].
Qed.

Lemma strict_prefix_same_length (p k : list string) :
  length p = length k -> strict_prefix p k = false.
Proof.
  intros H. unfold strict_prefix. apply andb_false_iff. left.
  apply bool_decide_eq_false. lia.
Qed.

Lemma is_prefix_app (p q : list string) : is_prefix p (p ++ q) = true.
Proof.
  unfold is_prefix. rewrite andb_true_iff, !bool_decide_eq_true. split.
  - rewrite length_app. lia.
  - apply take_app_length.
Qed.

Lemma is_prefix_refl (p : list string) : is_prefix p p = true.
Proof. rewrite <- (app_nil_r p) at 2. apply is_prefix_app. Qed.

Lemma lookup_node_insert_ne (fs : fsys) (k p : list string) (v : node) :
  k <> p -> lookup_node (<[k := v]> fs) p = lookup_node fs p.
Proof. intros H. destruct p as [|s p]; [reflexivity|]. simpl. by rewrite lookup_insert_ne. Qed.

Lemma rmdir_step (path : string) (fs : fsys) :
  path_segs path <> [] -> lookup_node fs (path_segs path) = Some Dir ->
  has_children fs (path_segs path) = false ->
  os_rmdir path fs = (inr tt, delete (path_segs path) fs).
Proof.
  intros Hne Hd Hc. unfold os_rmdir. cbv zeta. rewrite Hd.
  destruct (path_segs path); [contradiction|]. by rewrite Hc.
Qed.

Lemma shutil_move_not_dir (src dst : string) (fs : fsys) :
  node_isdir fs (path_segs dst) = false -> shutil_move src dst fs = os_rename src dst fs.
Proof. intros H. unfold shutil_move, io_bind, os_path_isdir. by rewrite H. Qed.

Lemma archive_entry_split (n : string) :
  str_has char_slash n = false ->
  py_split char_slash ("archive/" +:+ n) = ["archive"; n].
Proof.
  intros Hn. change ("archive/" +:+ n) with ("archive" +:+ String char_slash n).
  rewrite py_split_app_sep, (py_split_no_sep _ n Hn). reflexivity.
Qed.

Lemma prefix_app_self (p s : string) : String.prefix p (p +:+ s) = true.
Proof.
  induction p as [|c p IH].
  - destruct s; reflexivity.
  - rewrite str_app_cons. cbn [String.prefix].
    destruct (ascii_dec c c) as [_|C]; [exact IH | contradiction].
Qed.

(** [ZipFile.extract] of the file entry [archive/<n>] into [to], when
    nothing is at or below [<to>/archive]. *)
Lemma zip_extract_flat (to n data : string) (fs : fsys) :
  let root := path_segs to in
  str_has char_slash n = false -> n <> "" -> n <> "." -> n <> ".." ->
  zi_is_dir {| zi_filename := "archive/" +:+ n; zi_data := data |} = false ->
  lookup_node fs root = Some Dir ->
  fs !! (root ++ ["archive"]) = None ->
  fs !! (root ++ ["archive"; n]) = None ->
  zip_extract {| zi_filename := "archive/" +:+ n; zi_data := data |} to fs
  = (inr tt, <[root ++ ["archive"; n] := File data]> (<[root ++ ["archive"] := Dir]> fs)).
Proof.
  intros root Hn H1 H2 H3 Hfile Hroot HA HAN.
  unfold zip_extract. cbn [zi_filename zi_data]. rewrite (archive_entry_split n Hn).
  apply String.eqb_neq in H1, H2, H3.
  cbn [List.filter]. rewrite H1, H2, H3. cbn [negb andb].
  change (negb ("archive" =? "")%string && negb ("archive" =? ".")%string
          && negb ("archive" =? "..")%string) with true.
  cbv iota. fold root.
  assert (Hpar : parent (root ++ ["archive"; n]) = root ++ ["archive"]).
  { unfold parent. change ["archive"; n] with (["archive"] ++ [n]).
    rewrite app_assoc. apply removelast_last. }
  unfold io_bind. rewrite Hpar.
  unfold node_exists. rewrite lookup_node_nonempty, HA by apply snoc_nonempty.
  rewrite bool_decide_eq_false_2 by apply snoc_nonempty. cbn [negb andb].
  unfold makedirs_segs. rewrite rev_app_distr. cbn [rev app makedirs_rev].
  unfold io_bind. rewrite rev_involutive.
  unfold node_exists. rewrite Hroot.
  replace (negb (bool_decide (rev root = [])) && negb true) with false by (destruct (bool_decide _); reflexivity).
  unfold io_ret.
  rewrite (mkdir_step _ fs (snoc_nonempty root "archive")) by (rewrite parent_snoc; exact Hroot).
  rewrite HA. rewrite Hfile.
  unfold write_file_segs, check_parent. rewrite Hpar.
  rewrite lookup_node_nonempty, lookup_insert_eq by apply snoc_nonempty.
  rewrite lookup_node_nonempty by (destruct root; discriminate).
  rewrite lookup_insert_ne, HAN; [reflexivity|].
  intros E. change ["archive"; n] with (["archive"] ++ [n]) in E.
  rewrite app_assoc in E. symmetry in E. exact (snoc_neq _ _ E).
Qed.

(** Witness for [capture_file_rename]: the archive holding only
    [archive/data.warc.gz], extracted into [out/h] under the name
    [Linkra-2024-03-x], and again into [out/h] where a directory has the
    new name. *)
Lemma capture_file_rename_witness :
  extract_from_to capture_zip "archive/" "out/h" harvest_fs
    = (inr tt, relocated_fs capture_zip) /\
  str_has char_slash "Linkra-2024-03-x" = false /\ "Linkra-2024-03-x" <> "data" /\
  (exists fs2,
    extract_warcs capture_zip "out/h" "Linkra-2024-03-x" harvest_fs = (inr tt, fs2) /\
    fs2 !! ["out"; "h"; "data.warc.gz"] = None /\
    fs2 !! ["out"; "h"; "Linkra-2024-03-x.warc.gz"] = Some (File "WARC")) /\
  extract_warcs capture_zip "out/h" "Linkra-2024-03-x" dir_named_fs
  = (inl (IsADirectoryError (path_segs "out/h" ++ ["Linkra-2024-03-x" +:+ ".warc.gz"])),
     snd (extract_from_to capture_zip "archive/" "out/h" dir_named_fs)).
Proof.
  assert (Hext : extract_from_to capture_zip "archive/" "out/h" harvest_fs
                 = (inr tt, relocated_fs capture_zip)) by (vm_compute; reflexivity).
  assert (Hn : str_has char_slash "Linkra-2024-03-x" = false) by reflexivity.
  assert (Hd : "Linkra-2024-03-x" <> "data") by discriminate.
  split; [exact Hext|]. split; [exact Hn|]. split; [exact Hd|]. split.
  - destruct (proj1 (capture_file_rename capture_zip "out/h" "Linkra-2024-03-x" harvest_fs
                       (relocated_fs capture_zip) Hext Hn Hd) "WARC")
      as [fs2 [E [Hd2 [Hw _]]]].
    + vm_compute. reflexivity.
    + vm_compute. reflexivity.
    + vm_compute. discriminate.
    + exists fs2. split; [exact E|]. split; [exact Hd2 | exact Hw].
  - assert (Hext2 : extract_from_to capture_zip "archive/" "out/h" dir_named_fs
                    = (inr tt, snd (extract_from_to capture_zip "archive/" "out/h" dir_named_fs)))
      by (vm_compute; reflexivity).
    apply (proj1 (proj2 (capture_file_rename capture_zip "out/h" "Linkra-2024-03-x" dir_named_fs
                           _ Hext2 Hn Hd)) "WARC").
    + vm_compute. reflexivity.
    + vm_compute. reflexivity.
    + vm_compute. reflexivity.
Defined.

(* ------------------------------------------------------------------ *)
(** ** Relocation of flat entries *)

Lemma plain_segment_spec (n : string) :
  plain_segment n = true <-> str_has char_slash n = false /\ n <> "" /\ n <> "." /\ n <> "..".
Proof.
  unfold plain_segment. rewrite !andb_true_iff, !negb_true_iff, !String.eqb_neq. tauto.
Qed.

Lemma str_get_has (i : nat) (s : string) (c : ascii) :
  String.get i s = Some c -> str_has c s = true.
Proof.
  revert i. induction s as [|x r IH]; intros i H; [discriminate|].
  cbn [str_has]. destruct (ascii_dec x c) as [|Hx]; [reflexivity|].
  destruct i as [|i]; simpl in H; [congruence | exact (IH i H)].
Qed.

Lemma ends_with_slash_app (x n : string) :
  n <> "" -> ends_with_slash (x +:+ n) = ends_with_slash n.
Proof.
  intros Hn. unfold ends_with_slash. rewrite str_length_app.
  assert (L : String.length n <> 0) by (destruct n; [contradiction | discriminate]).
  replace (String.length x + String.length n - 1) with (String.length n - 1 + String.length x) by lia.
  rewrite <- String.append_correct2. reflexivity.
Qed.

Lemma ends_with_slash_no_slash (n : string) :
  str_has char_slash n = false -> ends_with_slash n = false.
Proof.
  intros H. unfold ends_with_slash.
  destruct (String.get _ n) as [c|] eqn:E; [|reflexivity].
  destruct (ascii_dec c char_slash) as [->|]; [|reflexivity].
  apply str_get_has in E. congruence.
Qed.

Lemma prefix_slash_app (a s : string) :
  a <> "" -> str_has char_slash a = false -> String.prefix "/" (a +:+ s) = false.
Proof.
  intros Ha Hs. destruct a as [|x r]; [contradiction|]. rewrite str_app_cons.
  cbn [String.prefix]. cbn [str_has] in Hs.
  destruct (ascii_dec x char_slash); [discriminate|].
  destruct (ascii_dec "/"%char x) as [E|]; [|reflexivity].
  exfalso. apply n. symmetry. exact E.
Qed.

Lemma entry_split (a n : string) :
  str_has char_slash a = false -> str_has char_slash n = false ->
  py_split char_slash (a +:+ "/" +:+ n) = [a; n].
Proof.
  intros Ha Hn. change ("/" +:+ n) with (String char_slash n).
  rewrite py_split_app_sep, (py_split_no_sep _ a Ha), (py_split_no_sep _ n Hn). reflexivity.
Qed.

Lemma entry_path_segs (a n : string) :
  plain_segment a = true -> plain_segment n = true ->
  path_segs (a +:+ "/" +:+ n) = [a; n].
Proof.
  intros Ha Hn. apply plain_segment_spec in Ha as (Ha & Ha1 & Ha2 & _).
  apply plain_segment_spec in Hn as (Hn & Hn1 & Hn2 & _).
  unfold path_segs. rewrite entry_split by assumption.
  apply String.eqb_neq in Ha1, Ha2, Hn1, Hn2.
  cbn [List.filter]. rewrite Ha1, Ha2, Hn1, Hn2. reflexivity.
Qed.

Lemma dir_path_segs (a : string) :
  plain_segment a = true -> path_segs (a +:+ "/") = [a].
Proof.
  intros Ha. apply plain_segment_spec in Ha as (Ha & Ha1 & Ha2 & _).
  unfold path_segs. rewrite <- (str_app_nil_r "/").
  change ("/" +:+ "") with (String char_slash "").
  rewrite py_split_app_sep, (py_split_no_sep _ a Ha).
  apply String.eqb_neq in Ha1, Ha2. cbn [List.filter py_split app]. rewrite Ha1, Ha2. reflexivity.
Qed.

Lemma is_prefix_snoc_same (r : list string) (a n : string) :
  is_prefix (r ++ [a]) (r ++ [n]) = true -> n = a.
Proof.
  unfold is_prefix. rewrite andb_true_iff, !bool_decide_eq_true. intros [_ H].
  rewrite take_ge in H by (rewrite !length_app; simpl; lia).
  apply app_inj_tail in H as [_ H]. exact H.
Qed.

Lemma is_prefix_app_l (p q k : list string) :
  is_prefix (p ++ q) k = true -> is_prefix p k = true.
Proof.
  unfold is_prefix. rewrite !andb_true_iff, !bool_decide_eq_true. intros [H1 H2].
  rewrite length_app in H1. split; [lia|].
  apply (f_equal (take (length p))) in H2. rewrite take_take, take_app_length in H2.
  replace (length p `min` length (p ++ q)) with (length p) in H2 by (rewrite length_app; lia).
  exact H2.
Qed.

(** [ZipFile.extract] of the file entry [<a>/<n>] into [to], when nothing
    is at [<to>/<a>] or [<to>/<a>/<n>]. *)
Lemma zip_extract_entry (a to n data : string) (fs : fsys) :
  let root := path_segs to in
  plain_segment a = true -> plain_segment n = true ->
  lookup_node fs root = Some Dir ->
  fs !! (root ++ [a]) = None ->
  fs !! (root ++ [a; n]) = None ->
  zip_extract {| zi_filename := a +:+ "/" +:+ n; zi_data := data |} to fs
  = (inr tt, <[root ++ [a; n] := File data]> (<[root ++ [a] := Dir]> fs)).
Proof.
  intros root Ha Hn Hroot HA HAN.
  pose proof Ha as (Has & Ha1 & Ha2 & Ha3)%plain_segment_spec.
  pose proof Hn as (Hns & Hn1 & Hn2 & Hn3)%plain_segment_spec.
  unfold zip_extract. cbn [zi_filename zi_data]. rewrite (entry_split a n Has Hns).
  apply String.eqb_neq in Ha1, Ha2, Ha3, Hn1, Hn2, Hn3.
  cbn [List.filter]. rewrite Ha1, Ha2, Ha3, Hn1, Hn2, Hn3. cbn [negb andb].
  fold root.
  assert (Hpar : parent (root ++ [a; n]) = root ++ [a]).
  { unfold parent. change [a; n] with ([a] ++ [n]).
    rewrite app_assoc. apply removelast_last. }
  unfold io_bind. rewrite Hpar.
  unfold node_exists. rewrite lookup_node_nonempty, HA by apply snoc_nonempty.
  rewrite bool_decide_eq_false_2 by apply snoc_nonempty. cbn [negb andb].
  unfold makedirs_segs. rewrite rev_app_distr. cbn [rev app makedirs_rev].
  unfold io_bind. rewrite rev_involutive.
  unfold node_exists. rewrite Hroot.
  replace (negb (bool_decide (rev root = [])) && negb true) with false
    by (destruct (bool_decide _); reflexivity).
  unfold io_ret.
  rewrite (mkdir_step _ fs (snoc_nonempty root a)) by (rewrite parent_snoc; exact Hroot).
  rewrite HA.
  unfold zi_is_dir. cbn [zi_filename].
  rewrite (ends_with_slash_app a ("/" +:+ n)) by (change ("/" +:+ n) with (String char_slash n); discriminate).
  change (ends_with_slash ("/" +:+ n)) with (ends_with_slash (String char_slash "" +:+ n)).
  rewrite (ends_with_slash_app (String char_slash "") n) by (apply String.eqb_neq; exact Hn1).
  rewrite ends_with_slash_no_slash by exact Hns.
  unfold write_file_segs, check_parent. rewrite Hpar.
  rewrite lookup_node_nonempty, lookup_insert_eq by apply snoc_nonempty.
  rewrite lookup_node_nonempty by (destruct root; discriminate).
  rewrite lookup_insert_ne, HAN; [reflexivity|].
  intros E. change [a; n] with ([a] ++ [n]) in E.
  rewrite app_assoc in E. symmetry in E. exact (snoc_neq _ _ E).
Qed.

(** One turn of the loop of [extract_from_to] on the file entry [<a>/<n>]:
    the file ends up at [<to>/<n>], replacing what was there unless it is
    a directory, and [<to>/<a>] is gone again. *)
Lemma relocate_entry_step (a to n data : string) (fs : fsys) :
  let root := path_segs to in
  plain_segment a = true -> plain_segment n = true -> n <> a ->
  lookup_node fs root = Some Dir ->
  (forall k v, fs !! k = Some v -> is_prefix (root ++ [a]) k = false) ->
  fs !! (root ++ [n]) <> Some Dir ->
  (zip_extract {| zi_filename := a +:+ "/" +:+ n; zi_data := data |} to ;;
   shutil_move (os_path_join to (a +:+ "/" +:+ n))
               (os_path_join to (os_path_basename (a +:+ "/" +:+ n))) ;;
   os_rmdir (os_path_join to (a +:+ "/"))) fs
  = (inr tt, <[root ++ [n] := File data]> fs).
Proof.
  intros root Ha Hn Hna Hroot Harch Hnd.
  pose proof Ha as (Has & Ha1 & Ha2 & Ha3)%plain_segment_spec.
  pose proof Hn as (Hns & Hn1 & Hn2 & Hn3)%plain_segment_spec.
  set (A := root ++ [a]). set (AN := root ++ [a; n]).
  set (R := root ++ [n]) in Hnd |- *.
  assert (HA : fs !! A = None).
  { destruct (fs !! A) as [v|] eqn:E; [|reflexivity].
    pose proof (Harch A v E) as P. rewrite is_prefix_refl in P. discriminate. }
  assert (HAN : fs !! AN = None).
  { destruct (fs !! AN) as [v|] eqn:E; [|reflexivity].
    pose proof (Harch AN v E) as P. unfold AN in P.
    change [a; n] with ([a] ++ [n]) in P.
    rewrite app_assoc, is_prefix_app in P. discriminate. }
  assert (HRA : R <> A) by (unfold R, A; intros E; apply app_inj_tail in E as [_ E]; congruence).
  assert (HRAN : R <> AN).
  { unfold R, AN. intros E. apply (f_equal length) in E. rewrite !length_app in E. simpl in E. lia. }
  assert (HAAN : A <> AN).
  { unfold A, AN. intros E. apply (f_equal length) in E. rewrite !length_app in E. simpl in E. lia. }
  unfold io_bind at 1.
  rewrite (zip_extract_entry a to n data fs Ha Hn Hroot HA HAN). fold root A AN.
  assert (Hbase : os_path_basename (a +:+ "/" +:+ n) = n).
  { unfold os_path_basename. by rewrite entry_split. }
  rewrite Hbase.
  assert (Hsrc : path_segs (os_path_join to (a +:+ "/" +:+ n)) = AN).
  { rewrite path_segs_join by (apply prefix_slash_app; assumption).
    rewrite entry_path_segs by assumption. reflexivity. }
  assert (Hdst : path_segs (os_path_join to n) = R).
  { rewrite path_segs_join by (apply prefix_slash_false; exact Hns).
    rewrite (path_segs_plain n Hns Hn1 Hn2). reflexivity. }
  assert (Hdir : path_segs (os_path_join to (a +:+ "/")) = A).
  { rewrite path_segs_join by (apply prefix_slash_app; assumption).
    rewrite dir_path_segs by assumption. reflexivity. }
  assert (HRb : (<[AN := File data]> (<[A := Dir]> fs)) !! R = fs !! R).
  { rewrite !lookup_insert_ne; [reflexivity | congruence | congruence]. }
  unfold io_bind at 1. rewrite shutil_move_not_dir.
  2: { unfold node_isdir. rewrite Hdst. unfold R.
       rewrite lookup_node_nonempty by apply snoc_nonempty. fold R. rewrite HRb.
       destruct (fs !! R) as [[|]|]; [contradiction | reflexivity | reflexivity]. }
  unfold os_rename. rewrite Hsrc, Hdst.
  rewrite (rename_file_step AN R _ data); [ | unfold AN; destruct root; discriminate
    | apply snoc_nonempty | apply lookup_insert_eq | | by rewrite HRb].
  2: { unfold R. rewrite parent_snoc, !lookup_node_insert_ne; [exact Hroot | |].
       - unfold A. intros E. exact (snoc_neq _ _ E).
       - unfold AN. intros E. change [a; n] with ([a] ++ [n]) in E.
         rewrite app_assoc in E. symmetry in E. apply (f_equal length) in E.
         rewrite !length_app in E. simpl in E. lia. }
  rewrite rmdir_step; rewrite ?Hdir.
  - f_equal. apply map_eq. intros k.
    destruct (decide (k = A)) as [->|KA].
    { rewrite lookup_delete_eq, lookup_insert_ne by congruence. exact (eq_sym HA). }
    rewrite lookup_delete_ne by congruence.
    destruct (decide (k = R)) as [->|KR]; [by rewrite !lookup_insert_eq|].
    rewrite !lookup_insert_ne by congruence.
    destruct (decide (k = AN)) as [->|KAN].
    { rewrite lookup_delete_eq. exact (eq_sym HAN). }
    rewrite lookup_delete_ne, !lookup_insert_ne by congruence. reflexivity.
  - apply snoc_nonempty.
  - rewrite lookup_node_nonempty by apply snoc_nonempty.
    rewrite lookup_insert_ne by congruence. rewrite lookup_delete_ne by congruence.
    rewrite lookup_insert_ne by congruence. apply lookup_insert_eq.
  - apply has_children_false. intros k v Hk.
    rewrite lookup_insert in Hk. case_decide as HkR.
    { subst k. apply strict_prefix_same_length. unfold A, R. rewrite !length_app. reflexivity. }
    rewrite lookup_delete in Hk. case_decide as HkAN; [discriminate|].
    rewrite lookup_insert in Hk. case_decide; [congruence|].
    rewrite lookup_insert in Hk. case_decide as HkA.
    { subst k. apply strict_prefix_same_length. reflexivity. }
    destruct (strict_prefix A k) eqn:Hs; [|reflexivity].
    apply strict_prefix_is_prefix in Hs. pose proof (Harch k v Hk) as P. fold A in P. congruence.
Qed.

Lemma entry_startswith (a n : string) : py_startswith (a +:+ "/" +:+ n) (a +:+ "/") = true.
Proof. unfold py_startswith. rewrite <- str_app_assoc. apply prefix_app_self. Qed.

Lemma entry_basename (a n : string) :
  str_has char_slash a = false -> str_has char_slash n = false ->
  os_path_basename (a +:+ "/" +:+ n) = n.
Proof. intros Ha Hn. unfold os_path_basename. by rewrite entry_split. Qed.

(** The loop of [extract_from_to] over entries each outside [<a>/] or a
    plain file directly in it writes the files to [<to>/<n>] in order. *)
Lemma relocate_entries (a to : string) (l : list ZipInfo) (fs : fsys) :
  let root := path_segs to in
  plain_segment a = true ->
  lookup_node fs root = Some Dir ->
  (forall k v, fs !! k = Some v -> is_prefix (root ++ [a]) k = false) ->
  Forall (fun zi => flat_or_outside a zi /\
            (py_startswith (zi_filename zi) (a +:+ "/") = true ->
             fs !! (root ++ [os_path_basename (zi_filename zi)]) <> Some Dir)) l ->
  extract_from_to_loop (a +:+ "/") to l fs = (inr tt, flat_relocation root a l fs).
Proof.
  intros root Ha. revert fs. induction l as [|zi rest IH]; intros fs Hroot Harch Hl.
  - reflexivity.
  - apply Forall_cons in Hl as [[Hzi Hnd] Hl].
    cbn [extract_from_to_loop]. unfold flat_relocation. cbn [fold_left].
    fold (flat_relocation root a rest).
    destruct Hzi as [Hout | (n & Hfn & Hn & Hna)].
    + unfold io_bind at 1. rewrite Hout. apply IH; [exact Hroot | exact Harch |].
      eapply Forall_impl; [exact Hl|]. intros y [Hy1 Hy2]. split; assumption.
    + destruct zi as [fn data]. cbn [zi_filename zi_data] in *. subst fn.
      pose proof Ha as (Has & _)%plain_segment_spec.
      pose proof Hn as (Hns & _)%plain_segment_spec.
      rewrite entry_startswith in Hnd |- *. rewrite entry_basename in Hnd by assumption.
      specialize (Hnd eq_refl).
      unfold io_bind at 1. cbv zeta.
      rewrite (relocate_entry_step a to n data fs Ha Hn Hna Hroot Harch Hnd).
      rewrite entry_basename by assumption. fold root. apply IH.
      * rewrite lookup_node_insert_ne; [exact Hroot | apply snoc_neq].
      * intros k v Hk. rewrite lookup_insert in Hk. case_decide as E.
        { subst k. destruct (is_prefix _ _) eqn:P; [|reflexivity].
          apply is_prefix_snoc_same in P. contradiction. }
        exact (Harch k v Hk).
      * eapply Forall_impl; [exact Hl|]. intros y [Hy1 Hy2]. split; [exact Hy1|].
        intros Hs. rewrite lookup_insert. case_decide; [discriminate | exact (Hy2 Hs)].
Qed.

Lemma flat_relocation_other (root : list string) (a : string) (l : list ZipInfo) (fs : fsys)
    (k : list string) :
  length k <> S (length root) -> flat_relocation root a l fs !! k = fs !! k.
Proof.
  intros Hk. unfold flat_relocation. revert fs. induction l as [|zi rest IH]; intros fs; [reflexivity|].
  cbn [fold_left]. rewrite IH.
  destruct (py_startswith _ _); [|reflexivity].
  rewrite lookup_insert_ne; [reflexivity|].
  intros E. subst k. rewrite length_app in Hk. simpl in Hk. lia.
Qed.

Lemma flat_relocation_no_dir (root : list string) (a : string) (l : list ZipInfo) (fs : fsys)
    (k : list string) :
  fs !! k <> Some Dir -> flat_relocation root a l fs !! k <> Some Dir.
Proof.
  unfold flat_relocation. revert fs. induction l as [|zi rest IH]; intros fs Hk; [exact Hk|].
  cbn [fold_left]. apply IH.
  destruct (py_startswith _ _); [|exact Hk].
  rewrite lookup_insert. case_decide; [discriminate | exact Hk].
Qed.

Lemma capture_renamed_other (root : list string) (name : string) (fs : fsys) (k : list string) :
  length k <> S (length root) -> capture_renamed root name fs !! k = fs !! k.
Proof.
  intros Hk. unfold capture_renamed.
  destruct (fs !! _) as [[|b]|]; [reflexivity| |reflexivity].
  rewrite lookup_insert_ne, lookup_delete_ne; [reflexivity| |];
    intros E; subst k; rewrite length_app in Hk; simpl in Hk; lia.
Qed.

Lemma find_app {A} (f : A -> bool) (l m : list A) :
  List.find f (l ++ m) = match List.find f l with Some x => Some x | None => List.find f m end.
Proof.
  induction l as [|x l IH]; [reflexivity|]. simpl. destruct (f x); [reflexivity | exact IH].
Qed.

Lemma find_none {A} (f : A -> bool) (l : list A) :
  Forall (fun x => f x = false) l -> List.find f l = None.
Proof. induction 1 as [|x l Hx _ IH]; [reflexivity|]. simpl. by rewrite Hx. Qed.

Lemma harvest_name_cons (z : ZipFile) (md : HarvestMetadata) :
  exists rest, get_harvest_name z md = String "L"%char rest.
Proof. unfold get_harvest_name, HARVEST_NAME_PREFIX. rewrite str_app_cons. eexists. reflexivity. Qed.

Lemma harvest_name_segs (z : ZipFile) (md : HarvestMetadata) (t : string) :
  str_has char_slash (get_harvest_name z md) = false ->
  path_segs (os_path_join t (get_harvest_name z md)) = path_segs t ++ [get_harvest_name z md].
Proof.
  intros Hn. destruct (harvest_name_cons z md) as [rest Hr].
  apply path_segs_join_name; [by apply prefix_slash_false|].
  apply path_segs_plain; [exact Hn | rewrite Hr; discriminate |].
  rewrite Hr. intros E. injection E as E _. discriminate.
Qed.

Lemma io_bind_ext {A B} (m : PyIO A) (k1 k2 : A -> PyIO B) (fs : fsys) :
  (forall x fs', k1 x fs' = k2 x fs') -> io_bind m k1 fs = io_bind m k2 fs.
Proof. intros H. unfold io_bind. destruct (m fs) as [[e|x] fs']; [reflexivity | apply H]. Qed.

(* ------------------------------------------------------------------ *)
(** ** The conversion as a whole *)

(** [extract_from_to] with the prefix [<a>/], over entries each outside
    [<a>/] or a flat file entry [<a>/<n>] ([n] a plain name other than [a]),
    into an existing directory [to] with nothing yet under [<to>/<a>] and no
    directory at the flat targets, succeeds and writes the bytes of each
    matching entry at [<to>/<n>], a later entry replacing an earlier one. *)
Theorem extract_from_to_flat_entries (z : ZipFile) (a to : string) (fs : fsys) :
  let root := path_segs to in
  plain_segment a = true ->
  lookup_node fs root = Some Dir ->
  (forall k v, fs !! k = Some v -> is_prefix (root ++ [a]) k = false) ->
  Forall (fun zi => flat_or_outside a zi /\
            (py_startswith (zi_filename zi) (a +:+ "/") = true ->
             fs !! (root ++ [os_path_basename (zi_filename zi)]) <> Some Dir)) (filelist z) ->
  extract_from_to z (a +:+ "/") to fs = (inr tt, flat_relocation root a (filelist z) fs).
Proof. intros root Ha Hroot Harch Hl. exact (relocate_entries a to (filelist z) fs Ha Hroot Harch Hl). Qed.

(** [extract_indexes] relocates the flat entries [indexes/<n>] to
    [<harvest_path>/logs/cdxj/<n>] under the same conditions; it needs
    [logs/cdxj] to exist already. *)
Theorem extract_indexes_flat_entries (z : ZipFile) (hp : string) (fs : fsys) :
  let cdxj := path_segs hp ++ ["logs"; "cdxj"] in
  lookup_node fs cdxj = Some Dir ->
  (forall k v, fs !! k = Some v -> is_prefix (cdxj ++ ["indexes"]) k = false) ->
  Forall (fun zi => flat_or_outside "indexes" zi /\
            (py_startswith (zi_filename zi) "indexes/" = true ->
             fs !! (cdxj ++ [os_path_basename (zi_filename zi)]) <> Some Dir)) (filelist z) ->
  extract_indexes z hp fs = (inr tt, flat_relocation cdxj "indexes" (filelist z) fs).
Proof.
  intros cdxj Hroot Harch Hl.
  assert (Hp : path_segs (os_path_join hp "logs/cdxj") = cdxj)
    by (rewrite path_segs_join by reflexivity; reflexivity).
  pose proof (relocate_entries "indexes" (os_path_join hp "logs/cdxj") (filelist z) fs
                eq_refl) as H.
  cbv zeta in H. rewrite Hp in H. exact (H Hroot Harch Hl).
Qed.

(** Entries that do not start with [from_path] play no part:
    [extract_from_to] behaves as on the archive holding only the matching
    entries. *)
Theorem extract_from_to_outside_skipped (z : ZipFile) (from_path to_path : string) (fs : fsys) :
  extract_from_to z from_path to_path fs
  = extract_from_to {| zf_filename := zf_filename z;
                       filelist := List.filter (fun zi => py_startswith (zi_filename zi) from_path)
                                     (filelist z) |} from_path to_path fs.
Proof.
  unfold extract_from_to. cbn [filelist]. revert fs.
  induction (filelist z) as [|zi rest IH]; intros fs; [reflexivity|].
  cbn [extract_from_to_loop List.filter].
  destruct (py_startswith (zi_filename zi) from_path) eqn:E.
  - cbn [extract_from_to_loop]. rewrite E. apply io_bind_ext. intros _. apply IH.
  - unfold io_bind at 1. apply IH.
Qed.

(** When no entry starts with [from_path], [extract_from_to] succeeds and
    changes nothing. *)
Theorem extract_from_to_no_match (z : ZipFile) (from_path to_path : string) (fs : fsys) :
  Forall (fun zi => py_startswith (zi_filename zi) from_path = false) (filelist z) ->
  extract_from_to z from_path to_path fs = (inr tt, fs).
Proof.
  unfold extract_from_to. induction 1 as [|zi rest Hzi _ IH]; [reflexivity|].
  cbn [extract_from_to_loop]. unfold io_bind at 1. rewrite Hzi. exact IH.
Qed.

(** The loop is sequential: on [l1 ++ l2] it runs [l1], stops at its
    first error, and otherwise goes on with [l2] from the file system [l1]
    left. *)
Lemma extract_from_to_loop_app (from_path to_path : string) (l1 l2 : list ZipInfo) (fs : fsys) :
  extract_from_to_loop from_path to_path (l1 ++ l2) fs
  = match extract_from_to_loop from_path to_path l1 fs with
    | (inl e, fs') => (inl e, fs')
    | (inr _, fs') => extract_from_to_loop from_path to_path l2 fs'
    end.
Proof.
  revert fs. induction l1 as [|zi rest IH]; intros fs; [reflexivity|].
  cbn [app extract_from_to_loop].
  match goal with |- io_bind ?m _ fs = _ => set (body := m) end.
  unfold io_bind. destruct (body fs) as [[e|[]] fs']; [reflexivity | apply IH].
Qed.

(** An archive without a [datapackage.json] member makes the conversion
    raise [KeyError], and a manifest that [json.loads] rejects makes it
    raise that error; the file system is unchanged in both cases. *)
Theorem manifest_errors_no_side_effect (json_loads : string -> exn + gmap string string)
    (args : Arguments) (members : list ZipInfo) (today : string) (fs : fsys) :
  (Forall (fun zi => zi_filename zi <> "datapackage.json") members ->
   prepare_and_run json_loads args members today fs
   = (inl (KeyError "datapackage.json"), fs)) /\
  (forall d e,
   zip_read {| zf_filename := wacz_path args; filelist := members |} "datapackage.json" = inr d ->
   json_loads d = inl e ->
   prepare_and_run json_loads args members today fs = (inl e, fs)).
Proof.
  split.
  - intros Hl. unfold prepare_and_run, io_bind, io_lift, get_harvest_metadata, zip_read.
    cbn [filelist]. rewrite find_none; [reflexivity|].
    apply Forall_rev. eapply Forall_impl; [exact Hl|]. intros zi Hzi.
    apply String.eqb_neq. exact Hzi.
  - intros d e Hread Hjson. unfold prepare_and_run, io_bind, io_lift, get_harvest_metadata.
    rewrite Hread, Hjson. reflexivity.
Qed.

Lemma list_last_app_cons (l : list string) (p : string) (ps : list string) (d : string) :
  List.last (l ++ p :: ps) d = List.last (p :: ps) d.
Proof.
  induction l as [|x l IH]; [reflexivity|].
  rewrite <- app_comm_cons. cbn [List.last]. rewrite IH.
  destruct l; reflexivity.
Qed.

Lemma basename_after_slash (d f : string) : os_path_basename (d +:+ "/" +:+ f) = os_path_basename f.
Proof.
  unfold os_path_basename. change ("/" +:+ f) with (String char_slash f).
  rewrite py_split_app_sep. destruct (py_split_cons char_slash f) as [p [ps ->]].
  apply list_last_app_cons.
Qed.

(** The collection identifier depends only on the base name of the
    archive path: not on its directories, nor on the archive's members. *)
Theorem harvest_name_basename_only (d f : string) (l1 l2 : list ZipInfo) (md : HarvestMetadata) :
  get_harvest_name {| zf_filename := d +:+ "/" +:+ f; filelist := l1 |} md
  = get_harvest_name {| zf_filename := f; filelist := l2 |} md.
Proof. unfold get_harvest_name. cbn [zf_filename]. by rewrite basename_after_slash. Qed.


Lemma is_prefix_snoc_cons (r : list string) (a b : string) (rest : list string) :
  is_prefix (r ++ [a]) (r ++ b :: rest) = true -> b = a.
Proof.
  unfold is_prefix. rewrite andb_true_iff, !bool_decide_eq_true. intros [_ H].
  replace (r ++ b :: rest) with ((r ++ [b]) ++ rest) in H by (rewrite <- app_assoc; reflexivity).
  rewrite length_app in H. simpl in H.
  replace (length r + 1) with (length (r ++ [b])) in H by (rewrite length_app; reflexivity).
  rewrite take_app_length in H. apply app_inj_tail in H as [_ H]. exact H.
Qed.

Lemma len_neq (r : list string) (x y : list string) : length x <> length y -> r ++ x <> r ++ y.
Proof. intros H E. apply H. apply (f_equal length) in E. rewrite !length_app in E. lia. Qed.

Lemma app_self_neq (r x : list string) : x <> [] -> r ++ x <> r.
Proof.
  intros Hx E. apply (f_equal length) in E. rewrite length_app in E.
  destruct x; [contradiction | simpl in E; lia].
Qed.

(** The file system after a successful conversion. *)
Lemma conversion_result (json_loads : string -> exn + gmap string string)
    (args : Arguments) (members : list ZipInfo) (today : string) (fs : fsys)
    (md : HarvestMetadata) :
  let wacz_zip := {| zf_filename := wacz_path args; filelist := members |} in
  let name := get_harvest_name wacz_zip md in
  let r := path_segs (target_path args) ++ [name] in
  get_harvest_metadata json_loads wacz_zip = inr md ->
  str_has char_slash name = false ->
  lookup_node fs (path_segs (target_path args)) = Some Dir ->
  (forall k v, fs !! k = Some v -> is_prefix r k = false) ->
  Forall (fun zi => flat_or_outside "archive" zi /\
            (py_startswith (zi_filename zi) "archive/" = true ->
             os_path_basename (zi_filename zi) <> "logs")) members ->
  prepare_and_run json_loads args members today fs
  = (inr tt, <[r ++ ["logs"; "crawl"; "info.txt"] :=
               File (print_lines (info_lines md (os_path_basename (wacz_path args)) name today))]>
             (capture_renamed r name (flat_relocation r "archive" members (with_structure r fs)))).
Proof.
  intros wacz_zip name r Hmd Hn Ht Hfresh Hl.
  assert (Hnone : forall x, fs !! (r ++ x) = None).
  { intros x. destruct (fs !! (r ++ x)) as [v|] eqn:E; [|reflexivity].
    pose proof (Hfresh _ v E) as P. rewrite is_prefix_app in P. discriminate. }
  assert (Hr0 : fs !! r = None) by (rewrite <- (app_nil_r r); apply Hnone).
  rewrite (prepare_and_run_metadata _ _ _ _ _ md Hmd). cbv zeta. fold wacz_zip name.
  set (hp := os_path_join (target_path args) name).
  assert (Hp : path_segs hp = r) by exact (harvest_name_segs wacz_zip md (target_path args) Hn).
  set (fsd := with_structure r fs).
  (* create_directory_structure *)
  assert (Hcds : create_directory_structure hp fs = (inr tt, fsd)).
  { pose proof (create_directory_structure_cases hp fs) as C. cbv zeta in C. rewrite Hp in C.
    pose proof (C (snoc_nonempty _ _)) as C2.
    assert (Hpar : lookup_node fs (parent r) = Some Dir) by (unfold r; rewrite parent_snoc; exact Ht).
    destruct (C2 Hpar) as (_ & _ & _ & _ & C3).
    rewrite C3 by (rewrite <- ?app_assoc; first [exact Hr0 | apply Hnone]).
    unfold fsd, with_structure. rewrite <- !app_assoc. reflexivity. }
  unfold io_bind at 1. rewrite Hcds.
  (* relocation *)
  set (fs3 := flat_relocation r "archive" members fsd).
  assert (Hfsd_r : fsd !! r = Some Dir).
  { unfold fsd, with_structure.
    rewrite lookup_insert_ne, lookup_insert_ne, lookup_insert_ne
      by (apply app_self_neq; discriminate).
    apply lookup_insert_eq. }
  assert (Hfsd_other : forall x, x <> ["logs"] -> x <> ["logs"; "cdx"] -> x <> ["logs"; "crawl"] ->
                       x <> [] -> fsd !! (r ++ x) = None).
  { intros x H1 H2 H3 H4. unfold fsd, with_structure.
    rewrite !lookup_insert_ne; [apply Hnone | ..]; intros E;
      first [ symmetry in E; exact (app_self_neq r x H4 E)
            | apply app_inv_head in E; congruence ]. }
  assert (Hrel : extract_from_to wacz_zip "archive/" hp fsd = (inr tt, fs3)).
  { pose proof (relocate_entries "archive" hp members fsd eq_refl) as H.
    cbv zeta in H. rewrite Hp in H. apply H.
    - rewrite lookup_node_nonempty by apply snoc_nonempty. exact Hfsd_r.
    - intros k v Hk. unfold fsd, with_structure in Hk.
      destruct (decide (k = r ++ ["logs"; "crawl"])) as [->|K1].
      { destruct (is_prefix _ _) eqn:P; [|reflexivity]. apply is_prefix_snoc_cons in P. discriminate. }
      rewrite lookup_insert_ne in Hk by congruence.
      destruct (decide (k = r ++ ["logs"; "cdx"])) as [->|K2].
      { destruct (is_prefix _ _) eqn:P; [|reflexivity]. apply is_prefix_snoc_cons in P. discriminate. }
      rewrite lookup_insert_ne in Hk by congruence.
      destruct (decide (k = r ++ ["logs"])) as [->|K3].
      { destruct (is_prefix _ _) eqn:P; [|reflexivity]. apply is_prefix_snoc_cons in P. discriminate. }
      rewrite lookup_insert_ne in Hk by congruence.
      destruct (decide (k = r)) as [->|K4].
      { destruct (is_prefix _ _) eqn:P; [|reflexivity]. exfalso.
        unfold is_prefix in P. apply andb_true_iff in P as [P _].
        apply bool_decide_eq_true in P. rewrite length_app in P. simpl in P. lia. }
      rewrite lookup_insert_ne in Hk by congruence.
      destruct (is_prefix _ _) eqn:P; [|reflexivity].
      apply is_prefix_app_l in P. rewrite (Hfresh k v Hk) in P. discriminate.
    - eapply Forall_impl; [exact Hl|]. intros zi [Hzi Hlogs]. split; [exact Hzi|].
      intros Hs. specialize (Hlogs Hs).
      rewrite Hfsd_other; [discriminate | congruence | congruence | congruence | discriminate]. }
  (* the rename of data.warc.gz *)
  assert (Hext : extract_warcs wacz_zip hp name fsd = (inr tt, capture_renamed r name fs3)).
  { unfold extract_warcs. cbv zeta. unfold io_bind at 1. rewrite Hrel.
    unfold io_bind, os_path_exists. rewrite data_warc_segs, Hp.
    unfold node_exists. rewrite lookup_node_nonempty by apply snoc_nonempty.
    assert (Hwn : name +:+ ".warc.gz" <> "logs").
    { intros E. apply (f_equal String.length) in E. rewrite str_length_app in E. simpl in E. lia. }
    unfold capture_renamed. destruct (fs3 !! (r ++ ["data.warc.gz"])) as [[|b]|] eqn:D.
    - exfalso. revert D. apply flat_relocation_no_dir.
      rewrite Hfsd_other; [discriminate | congruence | congruence | congruence | discriminate].
    - unfold os_rename. rewrite data_warc_segs, warc_path_segs, Hp by exact Hn.
      apply rename_file_step; [apply snoc_nonempty | apply snoc_nonempty | exact D | |].
      + rewrite parent_snoc, lookup_node_nonempty by (destruct r eqn:E; [|discriminate];
          exfalso; revert E; apply snoc_nonempty).
        unfold fs3. rewrite flat_relocation_other by lia. exact Hfsd_r.
      + apply flat_relocation_no_dir.
        rewrite Hfsd_other; [discriminate | congruence | congruence | congruence | discriminate].
    - reflexivity. }
  cbn iota. unfold io_bind at 1. rewrite Hext.
  (* info.txt *)
  unfold create_info_file, write_file_segs, check_parent.
  rewrite path_segs_join by reflexivity. rewrite Hp.
  change (path_segs "logs/crawl/info.txt") with ["logs"; "crawl"; "info.txt"].
  replace (parent (r ++ ["logs"; "crawl"; "info.txt"])) with (r ++ ["logs"; "crawl"])
    by (unfold parent; change ["logs"; "crawl"; "info.txt"] with (["logs"; "crawl"] ++ ["info.txt"]);
        rewrite app_assoc, removelast_last; reflexivity).
  rewrite !lookup_node_nonempty by (destruct r; discriminate).
  rewrite !capture_renamed_other by (rewrite length_app; simpl; lia).
  unfold fs3. rewrite !flat_relocation_other by (rewrite length_app; simpl; lia).
  assert (Lc : fsd !! (r ++ ["logs"; "crawl"]) = Some Dir)
    by (unfold fsd, with_structure; apply lookup_insert_eq).
  rewrite Lc, (Hfsd_other ["logs"; "crawl"; "info.txt"]) by discriminate.
  reflexivity.
Qed.






Lemma extract_from_to_flat_entries_witness :
  extract_from_to scenario_zip ("archive" +:+ "/") "out/h" harvest_fs
  = (inr tt, flat_relocation (path_segs "out/h") "archive" (filelist scenario_zip) harvest_fs).
Proof.
  apply (extract_from_to_flat_entries scenario_zip "archive" "out/h" harvest_fs).
  - reflexivity.
  - vm_compute. reflexivity.
  - apply (bool_decide_unpack (map_Forall
             (fun k (_ : node) => is_prefix (path_segs "out/h" ++ ["archive"]) k = false)
             harvest_fs)).
    vm_compute. exact I.
  - constructor; [split; [left; reflexivity | intros E; vm_compute in E; discriminate E]|].
    constructor; [|constructor]. split.
    + right. exists "data.warc.gz". split; [reflexivity|]. split; [reflexivity | discriminate].
    + intros _. vm_compute. discriminate.
Defined.

Lemma extract_indexes_flat_entries_witness :
  extract_indexes indexes_zip "out/h" cdxj_fs
  = (inr tt, flat_relocation (path_segs "out/h" ++ ["logs"; "cdxj"]) "indexes"
               (filelist indexes_zip) cdxj_fs).
Proof.
  apply (extract_indexes_flat_entries indexes_zip "out/h" cdxj_fs).
  - vm_compute. reflexivity.
  - apply (bool_decide_unpack (map_Forall
             (fun k (_ : node) => is_prefix ((path_segs "out/h" ++ ["logs"; "cdxj"]) ++ ["indexes"]) k = false)
             cdxj_fs)).
    vm_compute. exact I.
  - constructor; [split; [left; reflexivity | intros E; vm_compute in E; discriminate E]|].
    constructor; [|constructor]. split.
    + right. exists "index.cdxj". split; [reflexivity|]. split; [reflexivity | discriminate].
    + intros _. vm_compute. discriminate.
Defined.

Lemma extract_from_to_no_match_witness :
  extract_from_to scenario_zip "indexes/" "out/h" harvest_fs = (inr tt, harvest_fs).
Proof.
  apply extract_from_to_no_match. repeat constructor.
Defined.

Lemma manifest_errors_no_side_effect_witness :
  prepare_and_run scenario_loads scenario_args [data_warc_member] "2026-01-01T00:00:00" scenario_fs
  = (inl (KeyError "datapackage.json"), scenario_fs) /\
  prepare_and_run failing_loads scenario_args scenario_members "2026-01-01T00:00:00" scenario_fs
  = (inl (ValueError "bad json"), scenario_fs).
Proof.
  split.
  - apply (proj1 (manifest_errors_no_side_effect scenario_loads scenario_args [data_warc_member]
                    "2026-01-01T00:00:00" scenario_fs)).
    repeat constructor. discriminate.
  - apply (proj2 (manifest_errors_no_side_effect failing_loads scenario_args scenario_members
                    "2026-01-01T00:00:00" scenario_fs) "{}").
    + vm_compute. reflexivity.
    + reflexivity.
Defined.






Lemma not_prefix_neq (r x k : list string) : is_prefix r k = false -> r ++ x <> k.
Proof. intros H E. subst k. rewrite is_prefix_app in H. discriminate. Qed.

Lemma flat_relocation_outside (root : list string) (a : string) (l : list ZipInfo) (fs : fsys)
    (k : list string) :
  is_prefix root k = false -> flat_relocation root a l fs !! k = fs !! k.
Proof.
  intros Hk. unfold flat_relocation. revert fs. induction l as [|zi rest IH]; intros fs; [reflexivity|].
  cbn [fold_left]. rewrite IH.
  destruct (py_startswith _ _); [|reflexivity].
  rewrite lookup_insert_ne; [reflexivity|]. apply not_prefix_neq, Hk.
Qed.

Lemma capture_renamed_outside (root : list string) (name : string) (fs : fsys) (k : list string) :
  is_prefix root k = false -> capture_renamed root name fs !! k = fs !! k.
Proof.
  intros Hk. unfold capture_renamed.
  destruct (fs !! _) as [[|b]|]; [reflexivity| |reflexivity].
  rewrite lookup_insert_ne, lookup_delete_ne; [reflexivity | apply not_prefix_neq, Hk
                                               | apply not_prefix_neq, Hk].
Qed.

Lemma with_structure_outside (r : list string) (fs : fsys) (k : list string) :
  is_prefix r k = false -> with_structure r fs !! k = fs !! k.
Proof.
  intros Hk. unfold with_structure.
  rewrite !lookup_insert_ne; [reflexivity | ..]; try apply not_prefix_neq, Hk.
  intros E; subst k; rewrite is_prefix_refl in Hk; discriminate.
Qed.

(** A successful conversion changes nothing outside the destination root,
    and creates no [logs/cdxj]: the index directory of [extract_indexes]
    is never made. *)
Theorem conversion_frame (json_loads : string -> exn + gmap string string)
    (args : Arguments) (members : list ZipInfo) (today : string) (fs : fsys)
    (md : HarvestMetadata) :
  let wacz_zip := {| zf_filename := wacz_path args; filelist := members |} in
  let name := get_harvest_name wacz_zip md in
  let r := path_segs (target_path args) ++ [name] in
  get_harvest_metadata json_loads wacz_zip = inr md ->
  str_has char_slash name = false ->
  lookup_node fs (path_segs (target_path args)) = Some Dir ->
  (forall k v, fs !! k = Some v -> is_prefix r k = false) ->
  Forall (fun zi => flat_or_outside "archive" zi /\
            (py_startswith (zi_filename zi) "archive/" = true ->
             os_path_basename (zi_filename zi) <> "logs")) members ->
  let fs1 := snd (prepare_and_run json_loads args members today fs) in
  (forall k, is_prefix r k = false -> fs1 !! k = fs !! k) /\
  fs1 !! (r ++ ["logs"; "cdxj"]) = None.
Proof.
  intros wacz_zip name r Hmd Hn Ht Hfresh Hl fs1.
  pose proof (conversion_result json_loads args members today fs md Hmd Hn Ht Hfresh Hl) as C.
  unfold fs1. rewrite C. cbn [snd]. split.
  - intros k Hk.
    rewrite lookup_insert_ne by (apply not_prefix_neq, Hk).
    rewrite capture_renamed_outside, flat_relocation_outside, with_structure_outside
      by exact Hk.
    reflexivity.
  - rewrite lookup_insert_ne by (apply len_neq; discriminate).
    rewrite capture_renamed_other, flat_relocation_other
      by (unfold r; rewrite !length_app; simpl; lia).
    unfold with_structure.
    rewrite lookup_insert_ne by (intros E; apply app_inv_head in E; discriminate).
    rewrite lookup_insert_ne by (intros E; apply app_inv_head in E; discriminate).
    rewrite lookup_insert_ne by (intros E; apply app_inv_head in E; discriminate).
    rewrite lookup_insert_ne by (apply not_eq_sym, app_self_neq; discriminate).
    destruct (fs !! (r ++ ["logs"; "cdxj"])) as [v|] eqn:E; [|reflexivity].
    pose proof (Hfresh _ v E) as P. rewrite is_prefix_app in P. discriminate.
Qed.

Lemma conversion_frame_witness :
  (forall k, is_prefix scenario_root k = false -> scenario_fs_after !! k = scenario_fs !! k) /\
  scenario_fs_after !! (scenario_root ++ ["logs"; "cdxj"]) = None.
Proof.
  refine (conversion_frame scenario_loads scenario_args scenario_members
            "2026-01-01T00:00:00" scenario_fs scenario_md _ _ _ _ _).
  - vm_compute. reflexivity.
  - vm_compute. reflexivity.
  - vm_compute. reflexivity.
  - apply (bool_decide_unpack (map_Forall
             (fun k (_ : node) => is_prefix scenario_root k = false) scenario_fs)).
    vm_compute. exact I.
  - constructor; [split; [left; reflexivity | intros E; vm_compute in E; discriminate E]|].
    constructor; [|constructor]. split.
    + right. exists "data.warc.gz". split; [reflexivity|]. split; [reflexivity | discriminate].
    + intros _. vm_compute. discriminate.
Defined.

(** The loop of [extract_from_to] with the prefix [<a>/] on a list headed
    by the file entry [<a>/<n>]: the file is written at [<to>/<n>],
    replacing what was there unless it is a directory, and the loop goes on
    with the rest of the list. *)
Lemma relocate_head_entry (a to n data : string) (rest : list ZipInfo) (fs : fsys) :
  let root := path_segs to in
  plain_segment a = true -> plain_segment n = true -> n <> a ->
  lookup_node fs root = Some Dir ->
  (forall k v, fs !! k = Some v -> is_prefix (root ++ [a]) k = false) ->
  fs !! (root ++ [n]) <> Some Dir ->
  extract_from_to_loop (a +:+ "/") to
    ({| zi_filename := a +:+ "/" +:+ n; zi_data := data |} :: rest) fs
  = extract_from_to_loop (a +:+ "/") to rest (<[root ++ [n] := File data]> fs).
Proof.
  intros root Ha Hn Hna Hroot Harch Hnd.
  cbn [extract_from_to_loop zi_filename zi_data]. rewrite entry_startswith.
  unfold io_bind at 1. cbv zeta.
  rewrite (relocate_entry_step a to n data fs Ha Hn Hna Hroot Harch Hnd). reflexivity.
Qed.

(** Claim C7, amended: neither the relocation nor the rename of the
    capture file checks for collisions.  (1) A file entry [archive/<n>],
    at any position of the archive, replaces a file already at [<to>/<n>],
    whether it was there before the conversion or was written by an
    earlier entry of the same archive; the entry's step succeeds and the
    loop goes on with the next entry.  (2) The renamed capture file
    replaces a file already named [<collection-identifier>.warc.gz], and
    the step succeeds. *)
Theorem no_collision_check :
  (forall (zname to n data old : string) (pre rest : list ZipInfo) (fs fs' : fsys),
     str_has char_slash n = false -> n <> "" -> n <> "." -> n <> ".." -> n <> "archive" ->
     extract_from_to_loop "archive/" to pre fs = (inr tt, fs') ->
     lookup_node fs' (path_segs to) = Some Dir ->
     (forall k v, fs' !! k = Some v -> is_prefix (path_segs to ++ ["archive"]) k = false) ->
     fs' !! (path_segs to ++ [n]) = Some (File old) ->
     extract_from_to {| zf_filename := zname;
                        filelist := pre ++ {| zi_filename := "archive/" +:+ n; zi_data := data |}
                                      :: rest |}
       "archive/" to fs
     = extract_from_to_loop "archive/" to rest (<[path_segs to ++ [n] := File data]> fs')) /\
  (forall (z : ZipFile) (hp name b old : string) (fs fs1 : fsys),
     extract_from_to z "archive/" hp fs = (inr tt, fs1) ->
     str_has char_slash name = false ->
     fs1 !! (path_segs hp ++ ["data.warc.gz"]) = Some (File b) ->
     lookup_node fs1 (path_segs hp) = Some Dir ->
     fs1 !! (path_segs hp ++ [name +:+ ".warc.gz"]) = Some (File old) ->
     extract_warcs z hp name fs
     = (inr tt, <[path_segs hp ++ [name +:+ ".warc.gz"] := File b]>
                  (delete (path_segs hp ++ ["data.warc.gz"]) fs1))).
Proof.
  split.
  - intros zname to n data old pre rest fs fs' Hn H1 H2 H3 H4 Hpre Hroot Harch Hold.
    unfold extract_from_to. cbn [filelist]. rewrite extract_from_to_loop_app, Hpre.
    refine (relocate_head_entry "archive" to n data rest fs' eq_refl _ H4 Hroot Harch _).
    + apply plain_segment_spec. tauto.
    + rewrite Hold. discriminate.
  - intros z hp name b old fs fs1 Hext Hn Hb Hroot Hold.
    apply extract_warcs_rename_file; try assumption.
    rewrite Hold. discriminate.
Qed.

(** Witness for [no_collision_check]: the second of two entries
    [archive/a.warc.gz] replacing the file the first one wrote at
    [out/h/a.warc.gz], and renaming [data.warc.gz] onto an existing
    [out/h/x-1.warc.gz]. *)
Lemma no_collision_check_witness :
  extract_from_to {| zf_filename := "x.wacz";
                     filelist := [{| zi_filename := "archive/a.warc.gz"; zi_data := "FIRST" |};
                                  {| zi_filename := "archive/a.warc.gz"; zi_data := "SECOND" |}] |}
    "archive/" "out/h" harvest_fs
  = extract_from_to_loop "archive/" "out/h" []
      (<[["out"; "h"] ++ ["a.warc.gz"] := File "SECOND"]>
        (snd (extract_from_to_loop "archive/" "out/h"
                [{| zi_filename := "archive/a.warc.gz"; zi_data := "FIRST" |}] harvest_fs))) /\
  extract_warcs rename_zip "out/h" "x-1" harvest_fs
  = (inr tt, <[["out"; "h"] ++ ["x-1" +:+ ".warc.gz"] := File "WARC"]>
               (delete (["out"; "h"] ++ ["data.warc.gz"]) (relocated_fs rename_zip))).
Proof.
  split.
  - apply (proj1 no_collision_check "x.wacz" "out/h" "a.warc.gz" "SECOND" "FIRST"
             [{| zi_filename := "archive/a.warc.gz"; zi_data := "FIRST" |}] [] harvest_fs).
    + reflexivity.
    + discriminate.
    + discriminate.
    + discriminate.
    + discriminate.
    + vm_compute. reflexivity.
    + vm_compute. reflexivity.
    + apply (bool_decide_unpack (map_Forall
               (fun k (_ : node) => is_prefix (path_segs "out/h" ++ ["archive"]) k = false)
               (snd (extract_from_to_loop "archive/" "out/h"
                       [{| zi_filename := "archive/a.warc.gz"; zi_data := "FIRST" |}] harvest_fs)))).
      vm_compute. exact I.
    + vm_compute. reflexivity.
  - apply (proj2 no_collision_check rename_zip "out/h" "x-1" "WARC" "OLD" harvest_fs).
    + vm_compute. reflexivity.
    + reflexivity.
    + vm_compute. reflexivity.
    + vm_compute. reflexivity.
    + vm_compute. reflexivity.
Defined.
